(** * psycopg3.dbapi20: compatibility objects with DBAPI 2.0

    A shallow embedding of [psycopg3/dbapi20.py]: the type objects
    ([DBAPITypeObject]), the [Binary] wrapper with its two dumpers, and the
    constructors of dates and timestamps from ticks.

    Python values are modelled by the inductive [PyObj]; a Python [float] is
    an IEEE binary64 number, here a primitive [float]; an exception raised by
    a call is the [Raise] case of [result]. *)

From Stdlib Require Import ZArith Lia List String Ascii.
From Stdlib Require Import Init.Byte DecimalString DecimalNat.
From Stdlib Require Import Floats.PrimFloat Floats.FloatOps Floats.SpecFloat.
From stdpp Require Import base option list strings gmap.

Local Open Scope Z_scope.

(** ** Exceptions and results *)

Inductive PyExc : Set :=
| TypeError
| ValueError
| KeyError
| AttributeError
| OverflowError
| OSError.

Inductive result (A : Type) : Type :=
| Ok (a : A)
| Raise (e : PyExc).

Arguments Ok {A} a.
Arguments Raise {A} e.

#[global] Instance result_ret : MRet result := fun A a => Ok a.

#[global] Instance result_bind : MBind result := fun A B f m =>
  match m with
  | Ok a => f a
  | Raise e => Raise e
  end.

#[global] Instance result_fmap : FMap result := fun A B f m =>
  match m with
  | Ok a => Ok (f a)
  | Raise e => Raise e
  end.

Definition is_Ok {A} (m : result A) : Prop := exists a, m = Ok a.

(** ** Python values

    The values a caller can pass where the source says [Any]. *)

#[warnings="-register-all"]
Inductive PyObj : Type :=
| PyNone
| PyBool (b : bool)
| PyInt (z : Z)
| PyFloat (f : float)
| PyStr (s : string)
| PyBytes (b : list byte)
| PyByteArray (b : list byte)
| PyList (l : list PyObj)
| PyTuple (l : list PyObj).

(** [isinstance(o, int)], with the integer when it holds: [bool] is a
    subclass of [int], [True] is 1 and [False] is 0. *)
Definition as_int (o : PyObj) : option Z :=
  match o with
  | PyInt z => Some z
  | PyBool b => Some (Z.b2z b)
  | _ => None
  end.

Definition isinstance_int (o : PyObj) : bool :=
  match as_int o with Some _ => true | None => false end.

Definition isinstance_bytes (o : PyObj) : bool :=
  match o with PyBytes _ => true | _ => false end.

(** ** The type registry

    [oids.postgres_types] maps a type name to a record with an integer
    [oid]. The registry itself is a parameter of the definitions below. *)

Record TypeInfo : Set := { info_name : string; oid : Z }.

(** Modelled from the spec: the lookup [builtins[n]] of the registry class,
    which is not part of this module. The registry is a mapping from a
    symbolic type name to a record, and a name that is absent from it makes
    the lookup fail: with [KeyError], which the specification calls
    UnknownTypeName. *)
Definition registry_getitem (builtins : gmap string TypeInfo) (n : string)
  : result TypeInfo :=
  match builtins !! n with
  | Some info => Ok info
  | None => Raise KeyError
  end.

(** ** DBAPITypeObject *)

Module DBAPITypeObject.

Record t : Set := { name : string; values : list Z }.

(** The value of a rich comparison method: a [bool] or [NotImplemented]. *)
Inductive cmp : Set :=
| Bool (b : bool)
| NotImplemented.

(** [x in values] on a tuple of integers: the elements are compared in
    order with [==]. *)
Fixpoint tuple_contains (x : Z) (values : list Z) : bool :=
  match values with
  | [] => false
  | v :: rest => if Z.eqb v x then true else tuple_contains x rest
  end.

Section WithRegistry.
Variable builtins : gmap string TypeInfo.

(** [tuple(builtins[n].oid for n in type_names)]: the names are looked up
    from left to right and the first [KeyError] ends the construction. *)
Definition __init__ (name : string) (type_names : list string) : result t :=
  vals ← mapM (fun n => oid <$> registry_getitem builtins n) type_names;
  mret {| name := name; values := vals |}.
End WithRegistry.

Definition __repr__ (self : t) : string := "psycopg3." +:+ name self.

Definition __eq__ (self : t) (other : PyObj) : cmp :=
  match as_int other with
  | Some x => Bool (tuple_contains x (values self))
  | None => NotImplemented
  end.

Definition __ne__ (self : t) (other : PyObj) : cmp :=
  match as_int other with
  | Some x => Bool (negb (tuple_contains x (values self)))
  | None => NotImplemented
  end.

End DBAPITypeObject.

(** The type objects of the module, built when it is loaded. *)
Section TypeObjects.
Variable builtins : gmap string TypeInfo.

Definition BINARY : result DBAPITypeObject.t :=
  DBAPITypeObject.__init__ builtins "BINARY" ["bytea"]%string.

Definition DATETIME : result DBAPITypeObject.t :=
  DBAPITypeObject.__init__ builtins "DATETIME"
    ["timestamp"; "timestamptz"; "date"; "time"; "timetz"; "interval"]%string.

Definition NUMBER : result DBAPITypeObject.t :=
  DBAPITypeObject.__init__ builtins "NUMBER"
    ["int2"; "int4"; "int8"; "float4"; "float8"; "numeric"]%string.

Definition ROWID : result DBAPITypeObject.t :=
  DBAPITypeObject.__init__ builtins "ROWID" ["oid"]%string.

Definition STRING : result DBAPITypeObject.t :=
  DBAPITypeObject.__init__ builtins "STRING"
    ["text"; "varchar"; "bpchar"]%string.
End TypeObjects.

(** ** The builtin [bytes(x)]

    [bytes] of an integer is that many zero bytes, of a [bytes] or a
    [bytearray] a copy of its content, of a list or tuple of integers in
    [range(0, 256)] those bytes; a [str] (no encoding given), [None] and a
    [float] are rejected with [TypeError], an item that is not an integer
    with [TypeError], an item out of range or a negative count with
    [ValueError], a count that does not fit the size type with
    [OverflowError]. The memory of the host is not a limit here. *)

Definition ssize_t_min : Z := - 2 ^ 63.
Definition ssize_t_max : Z := 2 ^ 63 - 1.

Definition byte_of_int (z : Z) : result byte :=
  if (0 <=? z) && (z <? 256) then
    match Byte.of_N (Z.to_N z) with
    | Some b => Ok b
    | None => Raise ValueError
    end
  else Raise ValueError.

Definition byte_of_item (o : PyObj) : result byte :=
  match as_int o with
  | Some z => byte_of_int z
  | None => Raise TypeError
  end.

Definition zero_bytes (n : Z) : result (list byte) :=
  if (n <? ssize_t_min) || (ssize_t_max <? n) then Raise OverflowError
  else if n <? 0 then Raise ValueError
  else Ok (repeat x00%byte (Z.to_nat n)).

Definition py_bytes (o : PyObj) : result (list byte) :=
  match o with
  | PyBytes b | PyByteArray b => Ok b
  | PyInt n => zero_bytes n
  | PyBool b => zero_bytes (Z.b2z b)
  | PyList l | PyTuple l => mapM byte_of_item l
  | PyStr _ | PyNone | PyFloat _ => Raise TypeError
  end.

(** ** Binary: the wrapper *)

Module Binary.

(** [cls_name] is [self.__class__.__name__]: ["Binary"] unless the object
    belongs to a subclass. *)
Record t : Type := { cls_name : string; obj : PyObj }.

Definition __init__ (o : PyObj) : t := {| cls_name := "Binary"; obj := o |}.

(** The decimal digits of a length, as [f"{len(sobj)}"] prints them. *)
Definition str_of_len (n : nat) : string :=
  NilEmpty.string_of_uint (Nat.to_uint n).

Section WithRepr.
(** The builtin [repr] on the wrapped object. *)
Variable py_repr : PyObj -> string.

Definition __repr__ (self : t) : string :=
  let sobj := py_repr (obj self) in
  let sobj :=
    if (40 <? String.length sobj)%nat
    then substring 0 35 sobj +:+ " ... ("
         +:+ str_of_len (String.length sobj) +:+ " byteschars)"
    else sobj in
  cls_name self +:+ "(" +:+ sobj +:+ ")".
End WithRepr.

End Binary.

(** ** The connection and the escaping object *)

Module Format.
Inductive t : Set := TEXT | BINARY.
End Format.

Section Pq.
(** The libpq connection handle. *)
Variable PGconn : Type.

Record Connection : Type := { pgconn : PGconn }.

Record AdaptContext : Type := { connection : option Connection }.

Record Escaping : Type := { esc_conn : option PGconn }.

(** Modelled from the spec: the constructor of [pq.Escaping], which is not
    part of this module. The escaping collaborator is constructible from
    an optional live-connection handle and from no connection, and the
    construction succeeds in both cases. *)
Definition Escaping_init (conn : option PGconn) : result Escaping :=
  Ok {| esc_conn := conn |}.

(** The state [adapt.Dumper.__init__] leaves in the object. *)
Record Dumper : Type := { cls : string; dumper_connection : option Connection }.

(** Modelled from the spec: [adapt.Dumper.__init__], which is not part of
    this module. The connection of a dumper is the connection of the
    context it is built in, and there is none when the context is absent
    or has no connection. *)
Definition Dumper_init (cls : string) (context : option AdaptContext)
  : result Dumper :=
  Ok {| cls := cls; dumper_connection := context ≫= connection |}.

(** [bool(c)] for an optional connection: an object without [__bool__] and
    [__len__] is true, [None] is false. *)
Definition truthy (c : option Connection) : bool :=
  match c with Some _ => true | None => false end.

(** [c.pgconn]: [None] has no such attribute. *)
Definition getattr_pgconn (c : option Connection) : result PGconn :=
  match c with
  | Some c => Ok (pgconn c)
  | None => Raise AttributeError
  end.
End Pq.

Arguments pgconn {PGconn} _.
Arguments connection {PGconn} _.
Arguments esc_conn {PGconn} _.
Arguments Escaping_init {PGconn} _.
Arguments cls {PGconn} _.
Arguments dumper_connection {PGconn} _.
Arguments Dumper_init {PGconn} _ _.
Arguments truthy {PGconn} _.
Arguments getattr_pgconn {PGconn} _.

(** ** The dumpers of [Binary] *)

Module BinaryBinaryDumper.

Definition format : Format.t := Format.BINARY.

(** The class attribute [_oid = builtins["bytea"].oid]. *)
Definition _oid (builtins : gmap string TypeInfo) : result Z :=
  oid <$> registry_getitem builtins "bytea".

Definition dump {PGconn} (self : Dumper PGconn) (obj : Binary.t)
  : result (list byte) :=
  let wrapped := Binary.obj obj in
  match wrapped with
  | PyBytes b => Ok b
  | _ => py_bytes wrapped
  end.

End BinaryBinaryDumper.

Module BinaryTextDumper.

Definition format : Format.t := Format.TEXT.

Record t (PGconn : Type) : Type :=
  { base : Dumper PGconn; _esc : Escaping PGconn }.

Arguments base {PGconn} _.
Arguments _esc {PGconn} _.

Section WithConn.
Context {PGconn : Type}.
(** The method [escape_bytea] of [pq.Escaping], from bytes to bytes. *)
Variable escape_bytea : Escaping PGconn -> list byte -> result (list byte).

Definition __init__ (cls : string) (context : option (AdaptContext PGconn))
  : result (t PGconn) :=
  self ← Dumper_init cls context;
  conn ← (if truthy (dumper_connection self)
          then Some <$> getattr_pgconn (dumper_connection self)
          else Ok None);
  esc ← Escaping_init conn;
  mret {| base := self; _esc := esc |}.

Definition dump (self : t PGconn) (obj : Binary.t) : result (list byte) :=
  data ← BinaryBinaryDumper.dump (base self) obj;
  escape_bytea (_esc self) data.
End WithConn.

End BinaryTextDumper.

(** ** Floats

    A finite binary64 number is [m * 2^e] for integers [m] and [e]; the
    operations of Python that leave the floats ([math.floor], [round],
    [float(int)]) are defined on that exact value. *)

Inductive float_view : Set :=
| FNaN
| FInf (negative : bool)
| FFin (m e : Z).

Definition view (x : float) : float_view :=
  match Prim2SF x with
  | S754_nan => FNaN
  | S754_infinity s => FInf s
  | S754_zero _ => FFin 0 0
  | S754_finite s m e => FFin (if s then Z.neg m else Z.pos m) e
  end.

(** The largest integer not above [m * 2^e]. *)
Definition floor_dyadic (m e : Z) : Z :=
  if 0 <=? e then m * 2 ^ e else m / 2 ^ (- e).

(** The integer nearest to [m * 2^e], the even one of the two when it is
    half way between them. *)
Definition round_half_even_dyadic (m e : Z) : Z :=
  if 0 <=? e then m * 2 ^ e
  else
    let d := 2 ^ (- e) in
    let q := m / d in
    let r := m mod d in
    match 2 * r ?= d with
    | Lt => q
    | Gt => q + 1
    | Eq => if Z.even q then q else q + 1
    end.

(** [math.floor(x)] *)
Definition math_floor (x : float) : result Z :=
  match view x with
  | FNaN => Raise ValueError
  | FInf _ => Raise OverflowError
  | FFin m e => Ok (floor_dyadic m e)
  end.

(** [round(x)] with no [ndigits] *)
Definition py_round (x : float) : result Z :=
  match view x with
  | FNaN => Raise ValueError
  | FInf _ => Raise OverflowError
  | FFin m e => Ok (round_half_even_dyadic m e)
  end.

(** [float(n)] for an integer [n], as the arithmetic operators convert an
    [int] operand: the nearest float, [OverflowError] beyond the range. *)
Definition float_of_int (n : Z) : result float :=
  match binary_normalize prec emax n 0 false with
  | S754_infinity _ => Raise OverflowError
  | sf => Ok (SF2Prim sf)
  end.

(** [x - n] and [x * n] for a float [x] and an integer [n] *)
Definition float_sub_int (x : float) (n : Z) : result float :=
  y ← float_of_int n; mret (PrimFloat.sub x y).

Definition float_mul_int (x : float) (n : Z) : result float :=
  y ← float_of_int n; mret (PrimFloat.mul x y).

(** ** The [datetime] module *)

Definition _is_leap (year : Z) : bool :=
  (year mod 4 =? 0) && (negb (year mod 100 =? 0) || (year mod 400 =? 0)).

Definition _DAYS_IN_MONTH : list Z :=
  [-1; 31; 28; 31; 30; 31; 30; 31; 31; 30; 31; 30; 31].

Definition _DAYS_BEFORE_MONTH : list Z :=
  [-1; 0; 31; 59; 90; 120; 151; 181; 212; 243; 273; 304; 334].

Definition _days_in_month (year month : Z) : Z :=
  if (month =? 2) && _is_leap year then 29
  else nth (Z.to_nat month) _DAYS_IN_MONTH 0.

Definition _days_before_year (year : Z) : Z :=
  let y := year - 1 in
  y * 365 + y / 4 - y / 100 + y / 400.

Definition _days_before_month (year month : Z) : Z :=
  nth (Z.to_nat month) _DAYS_BEFORE_MONTH 0
  + Z.b2z ((2 <? month) && _is_leap year).

Definition _ymd2ord (year month day : Z) : Z :=
  _days_before_year year + _days_before_month year month + day.

Definition MINYEAR : Z := 1.
Definition MAXYEAR : Z := 9999.

(** [timedelta(seconds=s)], kept as its number of seconds; the number of
    days of a [timedelta] is at most 999999999 in absolute value. *)
Record timedelta : Set := { td_seconds : Z }.

Definition timedelta_of_seconds (s : Z) : result timedelta :=
  if Z.abs (s / 86400) <=? 999999999
  then Ok {| td_seconds := s |}
  else Raise OverflowError.

(** [timezone(offset)]: the offset is strictly between minus and plus 24
    hours. *)
Record timezone : Set := { utcoffset : timedelta }.

Definition timezone_new (offset : timedelta) : result timezone :=
  if (-86400 <? td_seconds offset) && (td_seconds offset <? 86400)
  then Ok {| utcoffset := offset |}
  else Raise ValueError.

Record date : Set := { d_year : Z; d_month : Z; d_day : Z }.

Record time : Set :=
  { t_hour : Z; t_minute : Z; t_second : Z; t_microsecond : Z }.

Record datetime : Set :=
  { year : Z; month : Z; day : Z;
    hour : Z; minute : Z; second : Z; microsecond : Z;
    tzinfo : option timezone }.

Definition _check_date_fields (year month day : Z) : bool :=
  (MINYEAR <=? year) && (year <=? MAXYEAR)
  && (1 <=? month) && (month <=? 12)
  && (1 <=? day) && (day <=? _days_in_month year month).

Definition _check_time_fields (hour minute second microsecond : Z) : bool :=
  (0 <=? hour) && (hour <=? 23)
  && (0 <=? minute) && (minute <=? 59)
  && (0 <=? second) && (second <=? 59)
  && (0 <=? microsecond) && (microsecond <=? 999999).

(** [dt.date(year, month, day)] *)
Definition date_new (year month day : Z) : result date :=
  if _check_date_fields year month day
  then Ok {| d_year := year; d_month := month; d_day := day |}
  else Raise ValueError.

(** [dt.time(hour, minute, second)] *)
Definition time_new (hour minute second microsecond : Z) : result time :=
  if _check_time_fields hour minute second microsecond
  then Ok {| t_hour := hour; t_minute := minute; t_second := second;
             t_microsecond := microsecond |}
  else Raise ValueError.

(** [dt.datetime(year, month, day, hour, minute, second, microsecond,
    tzinfo=tzinfo)] *)
Definition datetime_new (year month day hour minute second microsecond : Z)
    (tzinfo : option timezone) : result datetime :=
  if _check_date_fields year month day
     && _check_time_fields hour minute second microsecond
  then Ok {| year := year; month := month; day := day;
             hour := hour; minute := minute; second := second;
             microsecond := microsecond; tzinfo := tzinfo |}
  else Raise ValueError.

(** [d.date()] and [d.time()]: the second drops [tzinfo]. *)
Definition datetime_date (d : datetime) : date :=
  {| d_year := year d; d_month := month d; d_day := day d |}.

Definition datetime_time (d : datetime) : time :=
  {| t_hour := hour d; t_minute := minute d; t_second := second d;
     t_microsecond := microsecond d |}.

(** Microseconds from 1970-01-01T00:00:00+00:00 to an aware [datetime]:
    [(d - _EPOCH) // timedelta(microseconds=1)]. *)
Definition epoch_ordinal : Z := 719163.

Definition datetime_epoch_us (d : datetime) : option Z :=
  tz ← tzinfo d;
  mret (((_ymd2ord (year d) (month d) (day d) - epoch_ordinal) * 86400
         + hour d * 3600 + minute d * 60 + second d
         - td_seconds (utcoffset tz)) * 1000000
        + microsecond d).

(** ** The [time] module

    [time.localtime(ticks)] rounds [ticks] down to a [time_t] and asks the C
    library for the local calendar fields and the offset from UTC at that
    instant; the C library with its time zone database is the parameter
    [localtime_r]. *)

Record struct_time : Set :=
  { tm_year : Z; tm_mon : Z; tm_mday : Z;
    tm_hour : Z; tm_min : Z; tm_sec : Z;
    tm_gmtoff : Z }.

Definition time_t_min : Z := - 2 ^ 63.
Definition time_t_max : Z := 2 ^ 63 - 1.

Definition time_localtime (localtime_r : Z -> result struct_time)
    (ticks : float) : result struct_time :=
  match view ticks with
  | FNaN => Raise ValueError
  | FInf _ => Raise OverflowError
  | FFin m e =>
      let t := floor_dyadic m e in
      if (time_t_min <=? t) && (t <=? time_t_max)
      then localtime_r t
      else Raise OverflowError
  end.

(** ** Dates and times of the DBAPI *)

Definition Date (year month day : Z) : result date :=
  date_new year month day.

Definition Time (hour minute second : Z) : result time :=
  time_new hour minute second 0.

Definition Timestamp (year month day hour minute second : Z)
  : result datetime :=
  datetime_new year month day hour minute second 0 None.

Section FromTicks.
Variable localtime_r : Z -> result struct_time.

Definition TimestampFromTicks (ticks : float) : result datetime :=
  secs ← math_floor ticks;
  frac ← float_sub_int ticks secs;
  t ← time_localtime localtime_r ticks;
  offset ← timedelta_of_seconds (tm_gmtoff t);
  tzinfo ← timezone_new offset;
  scaled ← float_mul_int frac 1000000;
  us ← py_round scaled;
  datetime_new (tm_year t) (tm_mon t) (tm_mday t)
               (tm_hour t) (tm_min t) (tm_sec t) us (Some tzinfo).

Definition DateFromTicks (ticks : float) : result date :=
  datetime_date <$> TimestampFromTicks ticks.

Definition TimeFromTicks (ticks : float) : result time :=
  datetime_time <$> TimestampFromTicks ticks.
End FromTicks.

(** ** Instances of the parameters

    A registry with the catalog oids of the type names this module uses, a
    C library whose local time is at a fixed offset from UTC, and a
    hexadecimal escaping rule. They serve to run the definitions on concrete
    inputs. *)

Definition pg_types : gmap string TypeInfo :=
  list_to_map
    (map (fun p => (fst p, {| info_name := fst p; oid := snd p |}))
      [ ("bytea", 17); ("int8", 20); ("int2", 21); ("int4", 23);
        ("text", 25); ("oid", 26); ("float4", 700); ("float8", 701);
        ("bpchar", 1042); ("varchar", 1043); ("date", 1082); ("time", 1083);
        ("timestamp", 1114); ("timestamptz", 1184); ("interval", 1186);
        ("timetz", 1266); ("numeric", 1700) ]%string).

(** The value of [STRING] over [pg_types]. *)
Definition STRING_pg : DBAPITypeObject.t :=
  {| DBAPITypeObject.name := "STRING";
     DBAPITypeObject.values := [25; 1043; 1042] |}.

(** The month and the day of the [n]-th day of a year, counted from 0, as
    the second half of [datetime._ord2ymd] finds them: the month is
    estimated as [(n + 50) >> 5] and taken back by one when the estimate is
    too far. *)
Definition _ord2md (n : Z) (leapyear : bool) : Z * Z :=
  let month := Z.shiftr (n + 50) 5 in
  let preceding :=
    nth (Z.to_nat month) _DAYS_BEFORE_MONTH 0
    + Z.b2z ((2 <? month) && leapyear) in
  if n <? preceding then
    let month := month - 1 in
    let preceding :=
      preceding - (nth (Z.to_nat month) _DAYS_IN_MONTH 0
                   + Z.b2z ((month =? 2) && leapyear)) in
    (month, n - preceding + 1)
  else (month, n - preceding + 1).

(** The calendar date of a proleptic Gregorian ordinal, day 1 being
    0001-01-01 ([datetime._ord2ymd]). *)
Definition _ord2ymd (n : Z) : Z * Z * Z :=
  let n := n - 1 in
  let n400 := n / 146097 in
  let n := n mod 146097 in
  let n100 := n / 36524 in
  let n := n mod 36524 in
  let n4 := n / 1461 in
  let n := n mod 1461 in
  let n1 := n / 365 in
  let n := n mod 365 in
  let year := n400 * 400 + 1 + n100 * 100 + n4 * 4 + n1 in
  if (n1 =? 4) || (n100 =? 4) then (year - 1, 12, 31)
  else
    let leapyear := (n1 =? 3) && (negb (n4 =? 24) || (n100 =? 3)) in
    let '(month, day) := _ord2md n leapyear in
    (year, month, day).

(** A C library whose local time is [gmtoff] seconds east of UTC all year
    round, and that knows the years 1 to 9999. *)
Definition fixed_offset_localtime (gmtoff : Z) (t : Z) : result struct_time :=
  let local := t + gmtoff in
  let '(y, m, d) := _ord2ymd (epoch_ordinal + local / 86400) in
  let s := local mod 86400 in
  if (MINYEAR <=? y) && (y <=? MAXYEAR) then
    Ok {| tm_year := y; tm_mon := m; tm_mday := d;
          tm_hour := s / 3600; tm_min := s mod 3600 / 60; tm_sec := s mod 60;
          tm_gmtoff := gmtoff |}
  else Raise OSError.

Definition utc_localtime : Z -> result struct_time := fixed_offset_localtime 0.

(** An escaping rule in the style of the hexadecimal [bytea] output, the
    same with and without a connection: a backslash, an [x], and two digits
    for each byte. *)
Definition hex_digit (n : N) : byte :=
  match Byte.of_N (if (n <? 10)%N then 48 + n else 87 + n)%N with
  | Some b => b
  | None => x00
  end.

Definition hex_escape (self : Escaping unit) (data : list byte)
  : result (list byte) :=
  Ok ("\"%byte :: "x"%byte
      :: flat_map (fun b => [hex_digit (Byte.to_N b / 16);
                             hex_digit (Byte.to_N b mod 16)%N]) data).

(** A dumper built with no context, and a context with a live connection. *)
Definition plain_dumper : Dumper unit :=
  {| cls := "Binary"; dumper_connection := None |}.

Definition live_context : AdaptContext unit :=
  {| connection := Some {| pgconn := tt |} |}.

Definition idle_context : AdaptContext unit := {| connection := None |}.

(** The escaping object built from no connection. *)
Definition context_free : Escaping unit := {| esc_conn := None |}.

(** A representation of 40 characters and one of 41. *)
Definition repr40 (o : PyObj) : string :=
  "b'0123456789012345678901234567890123456'".

Definition repr41 (o : PyObj) : string :=
  "b'01234567890123456789012345678901234567'".

(** [ticks = 1.0 - 1e-7] *)
Definition one_tenth_of_a_microsecond : float :=
  PrimFloat.div 1 10000000.

Definition ticks_carry : float :=
  PrimFloat.sub 1 one_tenth_of_a_microsecond.

(** ** Vocabulary of the statements *)

(** [x] is the oid the registry gives to one of the names. *)
Definition resolved_oid (builtins : gmap string TypeInfo)
    (type_names : list string) (x : Z) : Prop :=
  exists n info, n ∈ type_names /\ builtins !! n = Some info /\ oid info = x.

(** The distance between [us] microseconds and [ticks] seconds is at most
    one microsecond, on the exact value of the float: for [ticks = m * 2^e]
    it compares [us] with [m * 2^e * 10^6]. *)
Definition within_one_microsecond (us : Z) (ticks : float) : bool :=
  match view ticks with
  | FFin m e =>
      if 0 <=? e then Z.abs (us - m * 2 ^ e * 1000000) <=? 1
      else Z.abs (us * 2 ^ (- e) - m * 1000000) <=? 2 ^ (- e)
  | _ => false
  end.

(** The timestamp of [ticks] exists and its distance to [ticks] from the
    epoch is at most one microsecond. *)
Definition roundtrip_within_one_microsecond
    (localtime_r : Z -> result struct_time) (ticks : float) : bool :=
  match TimestampFromTicks localtime_r ticks with
  | Ok d =>
      match datetime_epoch_us d with
      | Some us => within_one_microsecond us ticks
      | None => false
      end
  | Raise _ => false
  end.

(** The microseconds [TimestampFromTicks] computes from [ticks]: the part of
    its body that does not read the clock, [round((ticks - floor(ticks)) *
    1_000_000)]. *)
Definition fraction_microseconds (ticks : float) : result Z :=
  secs ← math_floor ticks;
  frac ← float_sub_int ticks secs;
  scaled ← float_mul_int frac 1000000;
  py_round scaled.

(** Seconds from the epoch to the instant a [struct_time] describes. *)
Definition struct_time_epoch (t : struct_time) : Z :=
  (_ymd2ord (tm_year t) (tm_mon t) (tm_mday t) - epoch_ordinal) * 86400
  + tm_hour t * 3600 + tm_min t * 60 + tm_sec t - tm_gmtoff t.

(** [_ord2md] gives a month from 1 to 12 and the day of that month. *)
Definition _ord2md_ok (n : Z) (leapyear : bool) : bool :=
  let '(m, d) := _ord2md n leapyear in
  (nth (Z.to_nat m) _DAYS_BEFORE_MONTH 0 + Z.b2z ((2 <? m) && leapyear) + d
   =? n + 1)
  && (1 <=? m) && (m <=? 12).

(** ** Loading the module

    The statements of the module that read the registry, in the order the
    module runs them: the five type objects, then the class attribute
    [_oid] of the binary dumper. The first lookup that fails ends the
    loading. *)

Record dbapi20 : Set :=
  { m_BINARY : DBAPITypeObject.t;
    m_DATETIME : DBAPITypeObject.t;
    m_NUMBER : DBAPITypeObject.t;
    m_ROWID : DBAPITypeObject.t;
    m_STRING : DBAPITypeObject.t;
    m_bytea_oid : Z }.

Definition load (builtins : gmap string TypeInfo) : result dbapi20 :=
  b ← BINARY builtins;
  d ← DATETIME builtins;
  n ← NUMBER builtins;
  r ← ROWID builtins;
  s ← STRING builtins;
  o ← BinaryBinaryDumper._oid builtins;
  mret {| m_BINARY := b; m_DATETIME := d; m_NUMBER := n; m_ROWID := r;
          m_STRING := s; m_bytea_oid := o |}.

(** The type objects of a loaded module and the names each is built from,
    in the same order. *)
Definition type_objects (m : dbapi20) : list DBAPITypeObject.t :=
  [m_BINARY m; m_DATETIME m; m_NUMBER m; m_ROWID m; m_STRING m].

Definition category_names : list (list string) :=
  [ ["bytea"];
    ["timestamp"; "timestamptz"; "date"; "time"; "timetz"; "interval"];
    ["int2"; "int4"; "int8"; "float4"; "float8"; "numeric"];
    ["oid"];
    ["text"; "varchar"; "bpchar"] ]%string.

(** Every type name the module looks up. *)
Definition module_type_names : list string := concat category_names.

(** Two names of the registry with the same oid are the same name. *)
Definition oid_injective (builtins : gmap string TypeInfo) : Prop :=
  forall n1 n2 i1 i2,
    builtins !! n1 = Some i1 -> builtins !! n2 = Some i2 ->
    oid i1 = oid i2 -> n1 = n2.

(** No string is in two of the lists. *)
Definition pairwise_disjoint (ls : list (list string)) : Prop :=
  forall i j l1 l2 n,
    i <> j -> ls !! i = Some l1 -> ls !! j = Some l2 ->
    n ∈ l1 -> n ∈ l2 -> False.

(** The module loaded over [pg_types]. *)
Definition pg_module : dbapi20 :=
  {| m_BINARY := {| DBAPITypeObject.name := "BINARY";
                    DBAPITypeObject.values := [17] |};
     m_DATETIME := {| DBAPITypeObject.name := "DATETIME";
                      DBAPITypeObject.values :=
                        [1114; 1184; 1082; 1083; 1266; 1186] |};
     m_NUMBER := {| DBAPITypeObject.name := "NUMBER";
                    DBAPITypeObject.values := [21; 23; 20; 700; 701; 1700] |};
     m_ROWID := {| DBAPITypeObject.name := "ROWID";
                   DBAPITypeObject.values := [26] |};
     m_STRING := STRING_pg;
     m_bytea_oid := 17 |}.

(** A registry without ["bytea"]. *)
Definition pg_types_without_bytea : gmap string TypeInfo :=
  delete "bytea"%string pg_types.

(** * Properties *)

(** ** The result monad *)

Section ResultFacts.
Context {A B : Type}.
Implicit Types (f : A -> result B) (l : list A) (k : list B).

Lemma bind_Ok_inv {C} (m : result A) (g : A -> result C) c :
  m ≫= g = Ok c -> exists a, m = Ok a /\ g a = Ok c.
Proof. destruct m as [a|e]; simpl; [eauto | discriminate]. Qed.

Lemma fmap_Ok_inv (m : result A) (g : A -> B) b :
  g <$> m = Ok b -> exists a, m = Ok a /\ b = g a.
Proof. destruct m as [a|e]; simpl; [|discriminate]. intros [= <-]. eauto. Qed.

Lemma mapM_Ok_Forall2 f l k :
  mapM f l = Ok k <-> Forall2 (fun x y => f x = Ok y) l k.
Proof.
  split.
  - revert k. induction l as [|x l IH]; intros k; simpl.
    + intros [= <-]. constructor.
    + destruct (f x) as [y|e] eqn:Hx; simpl; [|discriminate].
      destruct (mapM f l) as [k'|e]; simpl; [|discriminate].
      intros [= <-]. constructor; auto.
  - induction 1 as [|x y l k Hx _ IH]; simpl; [reflexivity|].
    rewrite Hx. simpl. rewrite IH. reflexivity.
Qed.

(** The first element that raises decides the exception of [mapM]. *)
Lemma mapM_Raise_uniform f l e :
  Forall (fun x => forall e', f x = Raise e' -> e' = e) l ->
  Exists (fun x => exists e', f x = Raise e') l ->
  mapM f l = Raise e.
Proof.
  intros Hall Hex. induction Hex as [x l [e' Hx]|x l _ IH]; simpl.
  - rewrite Hx. simpl. f_equal.
    apply (Forall_inv Hall). assumption.
  - destruct (f x) as [y|e'] eqn:Hx; simpl.
    + rewrite IH; [reflexivity|]. eapply Forall_inv_tail; eassumption.
    + f_equal. apply (Forall_inv Hall). assumption.
Qed.

Lemma mapM_total f l :
  Forall (fun x => is_Ok (f x)) l -> is_Ok (mapM f l).
Proof.
  induction 1 as [|x l [y Hx] _ [k IH]]; simpl.
  - exists []. reflexivity.
  - rewrite Hx. simpl. rewrite IH. exists (y :: k). reflexivity.
Qed.
End ResultFacts.

(** ** Type objects *)

Section TypeObjectFacts.
Import DBAPITypeObject.
Variable builtins : gmap string TypeInfo.

Lemma registry_getitem_Ok n info :
  registry_getitem builtins n = Ok info <-> builtins !! n = Some info.
Proof.
  unfold registry_getitem. destruct (builtins !! n); split; congruence.
Qed.

Lemma registry_getitem_Raise n e :
  registry_getitem builtins n = Raise e <-> builtins !! n = None /\ e = KeyError.
Proof.
  unfold registry_getitem. destruct (builtins !! n); split.
  - discriminate.
  - intros [? _]. discriminate.
  - intros [= <-]. auto.
  - intros [_ ->]. reflexivity.
Qed.

Lemma lookup_oid_Ok n v :
  oid <$> registry_getitem builtins n = Ok v <->
  oid <$> builtins !! n = Some v.
Proof.
  unfold registry_getitem. destruct (builtins !! n); simpl; split; congruence.
Qed.

Lemma tuple_contains_elem_of x vs :
  tuple_contains x vs = true <-> x ∈ vs.
Proof.
  induction vs as [|v vs IH]; simpl.
  - split; [discriminate | intros H; inversion H].
  - rewrite elem_of_cons. destruct (Z.eqb_spec v x) as [->|Hne].
    + split; auto.
    + rewrite IH. split; [auto | intros [?|?]; congruence].
Qed.

Lemma init_values name type_names cat :
  __init__ builtins name type_names = Ok cat ->
  DBAPITypeObject.name cat = name /\
  Forall2 (fun n v => oid <$> builtins !! n = Some v) type_names (values cat).
Proof.
  unfold __init__. intros H.
  apply bind_Ok_inv in H as (vals & Hvals & H).
  injection H as <-. simpl. split; [reflexivity|].
  apply mapM_Ok_Forall2 in Hvals.
  eapply Forall2_impl; [exact Hvals|].
  intros n v. apply lookup_oid_Ok.
Qed.

Lemma init_member name type_names cat x :
  __init__ builtins name type_names = Ok cat ->
  x ∈ values cat <-> resolved_oid builtins type_names x.
Proof.
  intros H. apply init_values in H as [_ H].
  induction H as [|n v ns vs Hn _ IH].
  - split; [intros Hx; inversion Hx | intros (n & ? & Hn & _); inversion Hn].
  - rewrite elem_of_cons, IH. unfold resolved_oid. split.
    + intros [->|(n' & info & Hin & Hl & Ho)].
      * destruct (builtins !! n) as [info|] eqn:Hl; simpl in Hn; [|discriminate].
        exists n, info. rewrite elem_of_cons. injection Hn as <-. auto.
      * exists n', info. rewrite elem_of_cons. auto.
    + intros (n' & info & Hin & Hl & Ho).
      apply elem_of_cons in Hin as [->|Hin].
      * left. rewrite Hl in Hn. simpl in Hn. congruence.
      * right. exists n', info. auto.
Qed.
End TypeObjectFacts.

(** C9. Building a type object looks every name up in the registry. When
    one of the names is not in the registry the construction raises
    [KeyError], the failure of the registry lookup; when all of them are,
    it succeeds, keeps the name, and its values are exactly the oids the
    registry gives to the names, in their order. *)
Theorem DBAPITypeObject_init_resolves
    (builtins : gmap string TypeInfo) (name : string) (type_names : list string) :
  (Exists (fun n => builtins !! n = None) type_names ->
   DBAPITypeObject.__init__ builtins name type_names = Raise KeyError)
  /\
  (Forall (fun n => is_Some (builtins !! n)) type_names ->
   exists cat,
     DBAPITypeObject.__init__ builtins name type_names = Ok cat
     /\ DBAPITypeObject.name cat = name
     /\ Forall2 (fun n v => oid <$> builtins !! n = Some v)
          type_names (DBAPITypeObject.values cat)).
Proof.
  split.
  - intros Hex. unfold DBAPITypeObject.__init__.
    rewrite (mapM_Raise_uniform _ _ KeyError); [reflexivity| |].
    + apply Forall_forall. intros n _ e He.
      destruct (registry_getitem builtins n) as [i|e0] eqn:Hg; simpl in He;
        [discriminate|].
      injection He as <-. apply registry_getitem_Raise in Hg as [_ ->].
      reflexivity.
    + eapply Exists_impl; [exact Hex|]. intros n Hn. exists KeyError.
      unfold registry_getitem. rewrite Hn. reflexivity.
  - intros Hall.
    assert (is_Ok (mapM (fun n => oid <$> registry_getitem builtins n) type_names))
      as [vals Hvals].
    { apply mapM_total. eapply Forall_impl; [exact Hall|].
      intros n [info Hn]. exists (oid info).
      unfold registry_getitem. rewrite Hn. reflexivity. }
    assert (DBAPITypeObject.__init__ builtins name type_names
            = Ok {| DBAPITypeObject.name := name;
                    DBAPITypeObject.values := vals |}) as Hinit.
    { unfold DBAPITypeObject.__init__. rewrite Hvals. reflexivity. }
    eexists. split; [exact Hinit|].
    apply (init_values builtins) in Hinit. exact Hinit.
Qed.

Lemma DBAPITypeObject_init_resolves_witness :
  DBAPITypeObject.__init__ pg_types "X" ["bytea"; "geometry"; "int4"]%string
    = Raise KeyError
  /\ exists cat,
       DBAPITypeObject.__init__ pg_types "NUMBER"
         ["int2"; "int4"; "int8"; "float4"; "float8"; "numeric"]%string = Ok cat
       /\ DBAPITypeObject.name cat = "NUMBER"%string
       /\ Forall2 (fun n v => oid <$> pg_types !! n = Some v)
            ["int2"; "int4"; "int8"; "float4"; "float8"; "numeric"]%string
            (DBAPITypeObject.values cat).
Proof.
  split.
  - apply (proj1 (DBAPITypeObject_init_resolves pg_types "X"
                    ["bytea"; "geometry"; "int4"]%string)).
    apply Exists_cons_tl, Exists_cons_hd. vm_compute. reflexivity.
  - apply (proj2 (DBAPITypeObject_init_resolves pg_types "NUMBER"
                    ["int2"; "int4"; "int8"; "float4"; "float8"; "numeric"]%string)).
    repeat constructor; vm_compute; eauto.
Defined.

(** C4. For a type object built from a list of names, the equality test
    against an integer is [True] exactly when the integer is the oid of one
    of the names, and [False] for every other integer; against a value that
    is not an integer it returns [NotImplemented]. The method is a total
    function: it raises nothing. *)
Theorem DBAPITypeObject_eq_membership
    (builtins : gmap string TypeInfo) (name : string) (type_names : list string)
    (cat : DBAPITypeObject.t)
    (Hcat : DBAPITypeObject.__init__ builtins name type_names = Ok cat) :
  (forall other x, as_int other = Some x ->
     (DBAPITypeObject.__eq__ cat other = DBAPITypeObject.Bool true
      <-> resolved_oid builtins type_names x)
     /\ (~ resolved_oid builtins type_names x ->
         DBAPITypeObject.__eq__ cat other = DBAPITypeObject.Bool false))
  /\ (forall other, isinstance_int other = false ->
        DBAPITypeObject.__eq__ cat other = DBAPITypeObject.NotImplemented).
Proof.
  split.
  - intros other x Hx. unfold DBAPITypeObject.__eq__. rewrite Hx.
    rewrite <- (init_member builtins name type_names cat x Hcat).
    rewrite <- tuple_contains_elem_of.
    destruct (DBAPITypeObject.tuple_contains x (DBAPITypeObject.values cat)).
    + split; [tauto | intros Hn; exfalso; apply Hn; reflexivity].
    + split; [split; [intros [=] | discriminate] | reflexivity].
  - intros other Hno. unfold DBAPITypeObject.__eq__, isinstance_int in *.
    destruct (as_int other); [discriminate | reflexivity].
Qed.

Lemma DBAPITypeObject_eq_membership_witness :
  STRING pg_types = Ok STRING_pg
  /\ (DBAPITypeObject.__eq__ STRING_pg (PyInt 1043) = DBAPITypeObject.Bool true
      <-> resolved_oid pg_types ["text"; "varchar"; "bpchar"]%string 1043)
  /\ DBAPITypeObject.__eq__ STRING_pg (PyInt 1043) = DBAPITypeObject.Bool true
  /\ DBAPITypeObject.__eq__ STRING_pg (PyInt 23) = DBAPITypeObject.Bool false
  /\ DBAPITypeObject.__eq__ STRING_pg (PyBool true) = DBAPITypeObject.Bool false
  /\ DBAPITypeObject.__eq__ STRING_pg (PyStr "text")
     = DBAPITypeObject.NotImplemented
  /\ DBAPITypeObject.__eq__ STRING_pg (PyFloat 25)
     = DBAPITypeObject.NotImplemented.
Proof.
  assert (STRING pg_types = Ok STRING_pg) as Hcat by (vm_compute; reflexivity).
  pose proof (DBAPITypeObject_eq_membership pg_types "STRING"
                ["text"; "varchar"; "bpchar"]%string STRING_pg Hcat)
    as [Hint Hother].
  split; [exact Hcat|].
  split; [apply (Hint (PyInt 1043) 1043); reflexivity|].
  split; [reflexivity|]. split; [reflexivity|]. split; [reflexivity|].
  split; apply Hother; reflexivity.
Defined.

(** C10. Against an integer the inequality test returns the negation of
    what the equality test returns, so exactly one of the two is [True];
    against a value that is not an integer both return
    [NotImplemented]. *)
Theorem DBAPITypeObject_ne_negates_eq (cat : DBAPITypeObject.t) (other : PyObj) :
  if isinstance_int other
  then exists b, DBAPITypeObject.__eq__ cat other = DBAPITypeObject.Bool b
              /\ DBAPITypeObject.__ne__ cat other = DBAPITypeObject.Bool (negb b)
  else DBAPITypeObject.__eq__ cat other = DBAPITypeObject.NotImplemented
       /\ DBAPITypeObject.__ne__ cat other = DBAPITypeObject.NotImplemented.
Proof.
  unfold isinstance_int, DBAPITypeObject.__eq__, DBAPITypeObject.__ne__.
  destruct (as_int other) as [x|].
  - eexists. split; reflexivity.
  - split; reflexivity.
Qed.

(** ** The wrapper and its dumpers *)

Section ByteFacts.

Lemma byte_of_int_Ok z b :
  byte_of_int z = Ok b -> 0 <= z < 256 /\ Byte.to_N b = Z.to_N z.
Proof.
  unfold byte_of_int.
  destruct (Z.leb_spec 0 z), (Z.ltb_spec z 256); simpl; try discriminate.
  destruct (Byte.of_N (Z.to_N z)) as [b'|] eqn:Hb; [|discriminate].
  intros [= <-]. split; [lia|]. apply Byte.to_of_N. exact Hb.
Qed.

Lemma byte_of_int_in_range z :
  0 <= z < 256 -> is_Ok (byte_of_int z).
Proof.
  intros Hz. unfold byte_of_int.
  destruct (Z.leb_spec 0 z), (Z.ltb_spec z 256); simpl; try lia.
  destruct (Byte.of_N (Z.to_N z)) as [b|] eqn:Hb; [exists b; reflexivity|].
  apply Byte.of_N_None_iff in Hb. lia.
Qed.

(** [bytes(b)] of a [bytes] object is its content. *)
Lemma py_bytes_of_bytes b : py_bytes (PyBytes b) = Ok b.
Proof. reflexivity. Qed.

(** A list of integers in [range(0, 256)] can be coerced. *)
Lemma py_bytes_of_small_ints (zs : list Z) :
  Forall (fun z => 0 <= z < 256) zs -> is_Ok (py_bytes (PyList (PyInt <$> zs))).
Proof.
  intros Hzs. simpl. apply mapM_total.
  apply Forall_fmap. eapply Forall_impl; [exact Hzs|].
  intros z Hz. apply byte_of_int_in_range. exact Hz.
Qed.
End ByteFacts.

(** C5. The binary dumper returns the bytes of a wrapper whose payload is a
    [bytes] object as they are; for every other payload its result is the
    result of [bytes(payload)], and an exception of that coercion is the
    exception of the dump. *)
Theorem BinaryBinaryDumper_dump_spec {PGconn : Type}
    (self : Dumper PGconn) (obj : Binary.t) :
  (forall b, Binary.obj obj = PyBytes b ->
     BinaryBinaryDumper.dump self obj = Ok b)
  /\ (isinstance_bytes (Binary.obj obj) = false ->
      BinaryBinaryDumper.dump self obj = py_bytes (Binary.obj obj))
  /\ (forall e, py_bytes (Binary.obj obj) = Raise e ->
      BinaryBinaryDumper.dump self obj = Raise e).
Proof.
  unfold BinaryBinaryDumper.dump.
  destruct (Binary.obj obj) as [| | | | |b| | |] eqn:Hobj; simpl;
    repeat split; try congruence; try discriminate.
Qed.

Lemma BinaryBinaryDumper_dump_spec_witness :
  BinaryBinaryDumper.dump plain_dumper
    (Binary.__init__ (PyBytes [x00; x01; xff]%byte))
    = Ok [x00; x01; xff]%byte
  /\ BinaryBinaryDumper.dump plain_dumper
       (Binary.__init__ (PyList [PyInt 0; PyInt 1; PyInt 255]))
     = Ok [x00; x01; xff]%byte
  /\ BinaryBinaryDumper.dump plain_dumper (Binary.__init__ (PyStr "abc"))
     = Raise TypeError.
Proof.
  split; [|split].
  - apply (proj1 (BinaryBinaryDumper_dump_spec plain_dumper
                    (Binary.__init__ (PyBytes [x00; x01; xff]%byte)))).
    reflexivity.
  - rewrite (proj1 (proj2 (BinaryBinaryDumper_dump_spec plain_dumper
                    (Binary.__init__ (PyList [PyInt 0; PyInt 1; PyInt 255])))));
      reflexivity.
  - apply (proj2 (proj2 (BinaryBinaryDumper_dump_spec plain_dumper
                    (Binary.__init__ (PyStr "abc"))))).
    reflexivity.
Defined.

(** The binary dump does not read the dumper: two dumpers give the same
    bytes for a wrapper. *)
Lemma BinaryBinaryDumper_dump_any {PGconn : Type}
    (d1 d2 : Dumper PGconn) (obj : Binary.t) :
  BinaryBinaryDumper.dump d1 obj = BinaryBinaryDumper.dump d2 obj.
Proof. reflexivity. Qed.

(** C1. The text dump of a wrapper is [escape_bytea] of the escaping object
    of the dumper applied to the bytes of the binary dump of the same
    wrapper: when the binary dump returns [data] the text dump is
    [escape_bytea data], and when the binary dump raises the text dump
    raises the same exception and escapes nothing. *)
Theorem BinaryTextDumper_dump_escapes_binary {PGconn : Type}
    (escape_bytea : Escaping PGconn -> list byte -> result (list byte))
    (self : BinaryTextDumper.t PGconn) (binary : Dumper PGconn)
    (obj : Binary.t) :
  match BinaryBinaryDumper.dump binary obj with
  | Ok data =>
      BinaryTextDumper.dump escape_bytea self obj
      = escape_bytea (BinaryTextDumper._esc self) data
  | Raise e => BinaryTextDumper.dump escape_bytea self obj = Raise e
  end.
Proof.
  unfold BinaryTextDumper.dump.
  rewrite (BinaryBinaryDumper_dump_any (BinaryTextDumper.base self) binary).
  destruct (BinaryBinaryDumper.dump binary obj) as [data|e]; reflexivity.
Qed.

(** The text dumper built in a context with a connection escapes with that
    connection. *)
Lemma BinaryTextDumper_init_connected {PGconn : Type}
    (cls : string) (context : AdaptContext PGconn) (c : Connection PGconn) :
  connection context = Some c ->
  exists self,
    BinaryTextDumper.__init__ cls (Some context) = Ok self
    /\ esc_conn (BinaryTextDumper._esc self) = Some (pgconn c).
Proof.
  intros Hc. unfold BinaryTextDumper.__init__. simpl. rewrite Hc. simpl.
  eexists. split; reflexivity.
Qed.

(** The attribute [pgconn] is read only from a connection that is there:
    the construction returns a dumper in every context. *)
Lemma BinaryTextDumper_init_total {PGconn : Type}
    (cls : string) (context : option (AdaptContext PGconn)) :
  is_Ok (BinaryTextDumper.__init__ cls context).
Proof.
  unfold BinaryTextDumper.__init__. simpl.
  destruct (context ≫= connection) as [c|]; simpl; eexists; reflexivity.
Qed.

(** C2. With no connection, because there is no context or because the
    context has none, the construction of the text dumper returns a dumper;
    its escaping object is the one built from no connection, and its dump
    is the binary dump followed by [escape_bytea] of that object. *)
Theorem BinaryTextDumper_init_without_connection {PGconn : Type}
    (escape_bytea : Escaping PGconn -> list byte -> result (list byte))
    (cls : string) (context : option (AdaptContext PGconn))
    (Hnone : context ≫= connection = None) :
  exists self,
    BinaryTextDumper.__init__ cls context = Ok self
    /\ Escaping_init None = Ok (BinaryTextDumper._esc self)
    /\ forall obj,
         BinaryTextDumper.dump escape_bytea self obj
         = BinaryBinaryDumper.dump (BinaryTextDumper.base self) obj
             ≫= escape_bytea {| esc_conn := None |}.
Proof.
  unfold BinaryTextDumper.__init__. simpl. rewrite Hnone. simpl.
  eexists. split; [reflexivity|]. split; [reflexivity|].
  intros obj. reflexivity.
Qed.

Lemma BinaryTextDumper_init_without_connection_witness :
  (exists self,
     BinaryTextDumper.__init__ "Binary" None = Ok self
     /\ Escaping_init None = Ok (BinaryTextDumper._esc self)
     /\ forall obj,
          BinaryTextDumper.dump hex_escape self obj
          = BinaryBinaryDumper.dump (BinaryTextDumper.base self) obj
              ≫= hex_escape context_free)
  /\ (exists self,
       BinaryTextDumper.__init__ "Binary" (Some idle_context) = Ok self
       /\ Escaping_init None = Ok (BinaryTextDumper._esc self)
       /\ forall obj,
            BinaryTextDumper.dump hex_escape self obj
            = BinaryBinaryDumper.dump (BinaryTextDumper.base self) obj
                ≫= hex_escape context_free).
Proof.
  split.
  - apply (BinaryTextDumper_init_without_connection hex_escape "Binary" None).
    reflexivity.
  - apply (BinaryTextDumper_init_without_connection hex_escape "Binary"
             (Some idle_context)).
    reflexivity.
Defined.

Section ReprFacts.

Lemma substring_all (s : string) : substring 0 (String.length s) s = s.
Proof. induction s as [|c s IH]; simpl; [reflexivity | f_equal; exact IH]. Qed.

(** [s[:n]] is a prefix of [s], of [n] characters when [s] has that many. *)
Lemma substring_prefix (n : nat) (s : string) :
  (n <= String.length s)%nat ->
  String.length (substring 0 n s) = n
  /\ s = substring 0 n s +:+ substring n (String.length s - n) s.
Proof.
  revert s. induction n as [|n IH]; intros s Hn.
  - rewrite Nat.sub_0_r, substring_all.
    destruct s; simpl; auto.
  - destruct s as [|c s]; simpl in *; [lia|].
    destruct (IH s) as [Hlen Heq]; [lia|].
    split; [congruence|].
    change (String c s
            = String c (substring 0 n s
                        +:+ substring n (String.length s - n) s)).
    f_equal. exact Heq.
Qed.

Lemma str_of_len_41 : Binary.str_of_len 41 = "41"%string.
Proof. reflexivity. Qed.
End ReprFacts.

(** C6. The diagnostic string of a wrapper is the class name and, between
    parentheses, the representation of the payload: entire when it has at
    most 40 characters; when it has more, its first 35 characters followed
    by [" ... ("], the decimal length of the entire representation and
    [" byteschars)"]. *)
Theorem Binary_repr_truncation (py_repr : PyObj -> string) (self : Binary.t) :
  let sobj := py_repr (Binary.obj self) in
  ((String.length sobj <= 40)%nat ->
   Binary.__repr__ py_repr self = Binary.cls_name self +:+ "(" +:+ sobj +:+ ")")
  /\
  ((40 < String.length sobj)%nat ->
   exists head tail,
     sobj = head +:+ tail
     /\ String.length head = 35%nat
     /\ Binary.__repr__ py_repr self
        = Binary.cls_name self +:+ "("
          +:+ (head +:+ " ... (" +:+ Binary.str_of_len (String.length sobj)
               +:+ " byteschars)")
          +:+ ")").
Proof.
  intros sobj. unfold Binary.__repr__. fold sobj. split; intros Hlen.
  - destruct (Nat.ltb_spec 40 (String.length sobj)); [lia | reflexivity].
  - destruct (Nat.ltb_spec 40 (String.length sobj)); [|lia].
    destruct (substring_prefix 35 sobj) as [H35 Hsplit]; [lia|].
    exists (substring 0 35 sobj), (substring 35 (String.length sobj - 35) sobj).
    split; [exact Hsplit|]. split; [exact H35 | reflexivity].
Qed.

Lemma Binary_repr_truncation_witness :
  Binary.__repr__ repr40 (Binary.__init__ PyNone)
    = "Binary(b'0123456789012345678901234567890123456')"%string
  /\ Binary.__repr__ repr41 (Binary.__init__ PyNone)
     = "Binary(b'012345678901234567890123456789012 ... (41 byteschars))"%string
  /\ exists head tail,
       repr41 PyNone = head +:+ tail
       /\ String.length head = 35%nat
       /\ Binary.__repr__ repr41 (Binary.__init__ PyNone)
          = "Binary" +:+ "("
            +:+ (head +:+ " ... (" +:+ Binary.str_of_len 41 +:+ " byteschars)")
            +:+ ")".
Proof.
  split; [|split].
  - apply (proj1 (Binary_repr_truncation repr40 (Binary.__init__ PyNone))).
    simpl. lia.
  - reflexivity.
  - apply (proj2 (Binary_repr_truncation repr41 (Binary.__init__ PyNone))).
    simpl. lia.
Defined.

(** ** The calendar of the fixed-offset clock *)

Section CalendarFacts.

Lemma _ord2md_ok_all n leapyear :
  0 <= n < 365 -> _ord2md_ok n leapyear = true.
Proof.
  intros Hn.
  assert (forallb (fun k => _ord2md_ok (Z.of_nat k) true
                            && _ord2md_ok (Z.of_nat k) false) (seq 0 365)
          = true) as Hall by (vm_compute; reflexivity).
  rewrite forallb_forall in Hall.
  specialize (Hall (Z.to_nat n)).
  rewrite Z2Nat.id in Hall by lia.
  assert (In (Z.to_nat n) (seq 0 365)) as Hin by (apply in_seq; lia).
  apply Hall in Hin. apply andb_prop in Hin as [Ht Hf].
  destruct leapyear; assumption.
Qed.

(** A year is [400 a + 100 b + 4 c + e + 1], as [_ord2ymd] builds it. *)
Lemma _days_before_year_split a b c e :
  0 <= b <= 3 -> 0 <= c <= 24 -> 0 <= e <= 3 ->
  _days_before_year (a * 400 + 1 + b * 100 + c * 4 + e)
  = 146097 * a + 36524 * b + 1461 * c + 365 * e.
Proof.
  intros Hb Hc He. unfold _days_before_year.
  Z.div_mod_to_equations. lia.
Qed.

Lemma _is_leap_split a b c e :
  0 <= b <= 3 -> 0 <= c <= 24 -> 0 <= e <= 3 ->
  _is_leap (a * 400 + 1 + b * 100 + c * 4 + e)
  = (e =? 3) && (negb (c =? 24) || (b =? 3)).
Proof.
  intros Hb Hc He. unfold _is_leap.
  destruct (Z.eqb_spec e 3), (Z.eqb_spec c 24), (Z.eqb_spec b 3); simpl;
  repeat match goal with
  | |- context [?x =? ?y] => destruct (Z.eqb_spec x y); simpl
  end; try reflexivity; exfalso; Z.div_mod_to_equations; lia.
Qed.

(** The ordinal of the date of an ordinal is that ordinal. *)
Lemma _ymd2ord_ord2ymd n :
  let '(y, m, d) := _ord2ymd n in _ymd2ord y m d = n.
Proof.
  unfold _ord2ymd.
  set (n0 := n - 1).
  set (a := n0 / 146097). set (r1 := n0 mod 146097).
  set (b := r1 / 36524). set (r2 := r1 mod 36524).
  set (c := r2 / 1461). set (r3 := r2 mod 1461).
  set (e := r3 / 365). set (r4 := r3 mod 365).
  assert (n0 = 146097 * a + r1 /\ 0 <= r1 < 146097) as [Hn0 Hr1]
    by (subst a r1; Z.div_mod_to_equations; lia).
  assert (r1 = 36524 * b + r2 /\ 0 <= r2 < 36524 /\ 0 <= b <= 4) as (Hr1' & Hr2 & Hb)
    by (subst b r2; Z.div_mod_to_equations; lia).
  assert (r2 = 1461 * c + r3 /\ 0 <= r3 < 1461 /\ 0 <= c <= 24) as (Hr2' & Hr3 & Hc)
    by (subst c r3; Z.div_mod_to_equations; lia).
  assert (r3 = 365 * e + r4 /\ 0 <= r4 < 365 /\ 0 <= e <= 4) as (Hr3' & Hr4 & He)
    by (subst e r4; Z.div_mod_to_equations; lia).
  clearbody a r1 b r2 c r3 e r4.
  destruct (Z.eqb_spec e 4) as [He4|He4]; simpl.
  - (* the last day of a leap year *)
    unfold _ymd2ord, _days_before_month.
    replace (a * 400 + 1 + b * 100 + c * 4 + e - 1)
      with (a * 400 + 1 + b * 100 + c * 4 + 3) by lia.
    assert (0 <= b <= 3) by lia. assert (0 <= c <= 24) by lia.
    rewrite _days_before_year_split by lia.
    rewrite _is_leap_split by lia.
    assert (c <> 24 \/ b = 3) as Hleap by lia.
    replace ((3 =? 3) && (negb (c =? 24) || (b =? 3))) with true.
    + simpl. lia.
    + destruct (Z.eqb_spec c 24), (Z.eqb_spec b 3); simpl; try reflexivity; lia.
  - destruct (Z.eqb_spec b 4) as [Hb4|Hb4]; simpl.
    + (* the last day of a cycle of 400 years *)
      unfold _ymd2ord, _days_before_month.
      replace (a * 400 + 1 + b * 100 + c * 4 + e - 1)
        with (a * 400 + 1 + 3 * 100 + 24 * 4 + 3) by lia.
      rewrite _days_before_year_split by lia.
      rewrite _is_leap_split by lia.
      simpl. lia.
    + pose proof (_ord2md_ok_all r4 ((e =? 3) && (negb (c =? 24) || (b =? 3))) Hr4)
        as Hmd.
      unfold _ord2md_ok in Hmd.
      destruct (_ord2md r4 _) as [m d].
      apply andb_prop in Hmd as [Hmd _]. apply andb_prop in Hmd as [Hmd _].
      apply Z.eqb_eq in Hmd.
      unfold _ymd2ord, _days_before_month.
      rewrite _days_before_year_split by lia.
      rewrite _is_leap_split by lia.
      lia.
Qed.

(** The fields and the offset a fixed-offset clock gives for an instant
    describe that instant. *)
Lemma fixed_offset_localtime_consistent gmtoff t st :
  fixed_offset_localtime gmtoff t = Ok st ->
  struct_time_epoch st = t /\ tm_gmtoff st = gmtoff.
Proof.
  unfold fixed_offset_localtime.
  pose proof (_ymd2ord_ord2ymd (epoch_ordinal + (t + gmtoff) / 86400)) as Hord.
  destruct (_ord2ymd _) as [[y m] d].
  destruct (_ && _); [|discriminate].
  intros [= <-]. unfold struct_time_epoch. simpl. split; [|reflexivity].
  rewrite Hord. Z.div_mod_to_equations. lia.
Qed.
End CalendarFacts.

(** ** Timestamps from ticks *)

Section FromTicksFacts.
Variable localtime_r : Z -> result struct_time.

Lemma datetime_new_Ok y mo d h mi s us tz dt :
  datetime_new y mo d h mi s us tz = Ok dt ->
  dt = {| year := y; month := mo; day := d; hour := h; minute := mi;
          second := s; microsecond := us; tzinfo := tz |}
  /\ 0 <= s <= 59 /\ 0 <= us <= 999999.
Proof.
  unfold datetime_new, _check_time_fields.
  destruct (_check_date_fields y mo d); simpl; [|discriminate].
  destruct (Z.leb_spec 0 h), (Z.leb_spec h 23), (Z.leb_spec 0 mi),
    (Z.leb_spec mi 59), (Z.leb_spec 0 s), (Z.leb_spec s 59),
    (Z.leb_spec 0 us), (Z.leb_spec us 999999); simpl; try discriminate.
  intros [= <-]. repeat split; lia.
Qed.

Lemma datetime_new_bad_microsecond y mo d h mi s us tz :
  ~ (0 <= us <= 999999) -> datetime_new y mo d h mi s us tz = Raise ValueError.
Proof.
  intros Hus. destruct (datetime_new y mo d h mi s us tz) as [dt|e] eqn:H.
  - apply datetime_new_Ok in H. tauto.
  - unfold datetime_new in H.
    destruct (_ && _) in H; [discriminate | congruence].
Qed.

(** What a successful call went through. *)
Lemma TimestampFromTicks_Ok_inv ticks dt :
  TimestampFromTicks localtime_r ticks = Ok dt ->
  exists t us tz,
    time_localtime localtime_r ticks = Ok t
    /\ fraction_microseconds ticks = Ok us
    /\ -86400 < tm_gmtoff t < 86400
    /\ tz = {| utcoffset := {| td_seconds := tm_gmtoff t |} |}
    /\ datetime_new (tm_year t) (tm_mon t) (tm_mday t)
          (tm_hour t) (tm_min t) (tm_sec t) us (Some tz) = Ok dt.
Proof.
  unfold TimestampFromTicks, fraction_microseconds. intros H.
  apply bind_Ok_inv in H as (secs & Hsecs & H).
  apply bind_Ok_inv in H as (frac & Hfrac & H).
  apply bind_Ok_inv in H as (t & Ht & H).
  apply bind_Ok_inv in H as (offset & Hoff & H).
  apply bind_Ok_inv in H as (tz & Htz & H).
  apply bind_Ok_inv in H as (scaled & Hscaled & H).
  apply bind_Ok_inv in H as (us & Hus & H).
  exists t, us, tz.
  unfold mbind, result_bind at 1 2 3.
  rewrite Hsecs, Hfrac, Hscaled.
  unfold timedelta_of_seconds in Hoff.
  destruct (_ <=? _) in Hoff; [|discriminate]. injection Hoff as <-.
  unfold timezone_new in Htz. simpl in Htz.
  destruct (Z.ltb_spec (-86400) (tm_gmtoff t)),
    (Z.ltb_spec (tm_gmtoff t) 86400); simpl in Htz; try discriminate.
  injection Htz as <-. repeat split; auto.
Qed.

(** The microsecond field of a timestamp the function returns is in
    range, and so is its second field. *)
Lemma TimestampFromTicks_fields_in_range ticks dt :
  TimestampFromTicks localtime_r ticks = Ok dt ->
  0 <= second dt <= 59 /\ 0 <= microsecond dt <= 999999.
Proof.
  intros H. apply TimestampFromTicks_Ok_inv in H
    as (t & us & tz & _ & _ & _ & _ & H).
  apply datetime_new_Ok in H as (-> & Hs & Hus). simpl. auto.
Qed.

(** The microsecond field is the rounded fraction as it is: the second
    field is the one of the clock, whatever the fraction rounds to. *)
Lemma TimestampFromTicks_second_of_clock ticks dt :
  TimestampFromTicks localtime_r ticks = Ok dt ->
  exists t,
    time_localtime localtime_r ticks = Ok t
    /\ second dt = tm_sec t
    /\ fraction_microseconds ticks = Ok (microsecond dt).
Proof.
  intros H. apply TimestampFromTicks_Ok_inv in H
    as (t & us & tz & Ht & Hus & _ & _ & H).
  apply datetime_new_Ok in H as (-> & _). simpl. eauto.
Qed.

(** When the fraction rounds to a number of microseconds out of range, no
    timestamp is returned. *)
Lemma TimestampFromTicks_fraction_overflow ticks us :
  fraction_microseconds ticks = Ok us ->
  ~ (0 <= us <= 999999) ->
  forall dt, TimestampFromTicks localtime_r ticks <> Ok dt.
Proof.
  intros Hus Hbad dt H.
  apply TimestampFromTicks_Ok_inv in H
    as (t & us' & tz & _ & Hus' & _ & _ & H).
  rewrite Hus in Hus'. injection Hus' as <-.
  apply datetime_new_Ok in H. tauto.
Qed.

(** The timestamp is at [floor(ticks)] seconds and the rounded fraction
    from the epoch, when the clock's fields and offset describe the
    instant they were asked for. *)
Lemma TimestampFromTicks_epoch_us ticks dt secs :
  TimestampFromTicks localtime_r ticks = Ok dt ->
  math_floor ticks = Ok secs ->
  (forall t, time_localtime localtime_r ticks = Ok t ->
             struct_time_epoch t = secs) ->
  exists us,
    fraction_microseconds ticks = Ok us
    /\ datetime_epoch_us dt = Some (secs * 1000000 + us).
Proof.
  intros H Hsecs Hclock.
  apply TimestampFromTicks_Ok_inv in H
    as (t & us & tz & Ht & Hus & _ & -> & H).
  apply datetime_new_Ok in H as (-> & _).
  exists us. split; [exact Hus|].
  specialize (Hclock t Ht). unfold struct_time_epoch in Hclock.
  unfold datetime_epoch_us. simpl. f_equal. lia.
Qed.
End FromTicksFacts.

Lemma time_localtime_floor (localtime_r : Z -> result struct_time) ticks secs t :
  math_floor ticks = Ok secs ->
  time_localtime localtime_r ticks = Ok t ->
  localtime_r secs = Ok t.
Proof.
  unfold math_floor, time_localtime.
  destruct (view ticks) as [|s|m e]; try discriminate.
  intros [= <-]. destruct (_ && _); [auto | discriminate].
Qed.

(** With a fixed-offset clock, a timestamp that is returned is at
    [floor(ticks)] seconds and the rounded fraction from the epoch. *)
Lemma TimestampFromTicks_fixed_offset_epoch_us gmtoff ticks dt :
  TimestampFromTicks (fixed_offset_localtime gmtoff) ticks = Ok dt ->
  exists secs us,
    math_floor ticks = Ok secs
    /\ fraction_microseconds ticks = Ok us
    /\ 0 <= us <= 999999
    /\ datetime_epoch_us dt = Some (secs * 1000000 + us).
Proof.
  intros H.
  destruct (math_floor ticks) as [secs|e] eqn:Hsecs.
  - destruct (TimestampFromTicks_epoch_us _ ticks dt secs H Hsecs)
      as (us & Hus & Hepoch).
    + intros t Ht. apply (time_localtime_floor _ _ _ _ Hsecs) in Ht.
      apply fixed_offset_localtime_consistent in Ht. tauto.
    + pose proof (TimestampFromTicks_fields_in_range _ _ _ H) as [_ Hrange].
      apply TimestampFromTicks_second_of_clock in H as (t & _ & _ & Hus').
      rewrite Hus in Hus'. injection Hus' as ->.
      exists secs, (microsecond dt). auto.
  - unfold TimestampFromTicks in H. rewrite Hsecs in H. discriminate.
Qed.

Lemma fraction_microseconds_carry : fraction_microseconds ticks_carry = Ok 1000000.
Proof. vm_compute. reflexivity. Qed.

Lemma TimestampFromTicks_carry_not_Ok
    (localtime_r : Z -> result struct_time) (dt : datetime) :
  TimestampFromTicks localtime_r ticks_carry <> Ok dt.
Proof.
  apply (TimestampFromTicks_fraction_overflow localtime_r ticks_carry 1000000).
  - exact fraction_microseconds_carry.
  - lia.
Qed.

(** C8. The date and the time of day from ticks are the [date()] and the
    [time()] of the timestamp from the same ticks: when the timestamp is
    [dt] they are the fields of [dt], and when the timestamp raises they
    raise the same exception. *)
Theorem DateFromTicks_TimeFromTicks_project
    (localtime_r : Z -> result struct_time) (ticks : float) :
  match TimestampFromTicks localtime_r ticks with
  | Ok dt =>
      DateFromTicks localtime_r ticks
      = Ok {| d_year := year dt; d_month := month dt; d_day := day dt |}
      /\ TimeFromTicks localtime_r ticks
         = Ok {| t_hour := hour dt; t_minute := minute dt;
                 t_second := second dt; t_microsecond := microsecond dt |}
  | Raise e =>
      DateFromTicks localtime_r ticks = Raise e
      /\ TimeFromTicks localtime_r ticks = Raise e
  end.
Proof.
  unfold DateFromTicks, TimeFromTicks.
  destruct (TimestampFromTicks localtime_r ticks) as [dt|e]; split; reflexivity.
Qed.

(** C3, on the code. At [ticks = 1.0 - 1e-7] the whole seconds are 0 and the
    fraction rounds to 1000000 microseconds; that number is passed to the
    [datetime] constructor as it is, so no timestamp is returned, whatever
    the clock: the call raises [ValueError] where a timestamp with second 1
    and microsecond 0 is expected. *)
Theorem TimestampFromTicks_carry_raises :
  math_floor ticks_carry = Ok 0
  /\ fraction_microseconds ticks_carry = Ok 1000000
  /\ (forall localtime_r dt,
        TimestampFromTicks localtime_r ticks_carry <> Ok dt)
  /\ TimestampFromTicks utc_localtime ticks_carry = Raise ValueError
  /\ TimestampFromTicks (fixed_offset_localtime 3600) ticks_carry
     = Raise ValueError.
Proof.
  split; [vm_compute; reflexivity|].
  split; [exact fraction_microseconds_carry|].
  split; [exact TimestampFromTicks_carry_not_Ok|].
  split; vm_compute; reflexivity.
Qed.

(** C7, on the code. At [ticks = 1.0 - 1e-7] there is no timestamp to project
    back, whatever the clock, although one second after the epoch is within
    one microsecond of these ticks. *)
Theorem TimestampFromTicks_roundtrip_fails_at_carry :
  (forall localtime_r,
     roundtrip_within_one_microsecond localtime_r ticks_carry = false)
  /\ within_one_microsecond 1000000 ticks_carry = true.
Proof.
  split; [|vm_compute; reflexivity].
  intros localtime_r. unfold roundtrip_within_one_microsecond.
  destruct (TimestampFromTicks localtime_r ticks_carry) as [dt|e] eqn:H;
    [|reflexivity].
  exfalso. exact (TimestampFromTicks_carry_not_Ok localtime_r dt H).
Qed.

(** ** Runs *)

Example TimestampFromTicks_half_second :
  TimestampFromTicks utc_localtime 0.5
  = Ok {| year := 1970; month := 1; day := 1;
          hour := 0; minute := 0; second := 0; microsecond := 500000;
          tzinfo := Some {| utcoffset := {| td_seconds := 0 |} |} |}.
Proof. vm_compute. reflexivity. Qed.

Example TimestampFromTicks_before_epoch :
  TimestampFromTicks (fixed_offset_localtime (-18000)) (-0.5)
  = Ok {| year := 1969; month := 12; day := 31;
          hour := 18; minute := 59; second := 59; microsecond := 500000;
          tzinfo := Some {| utcoffset := {| td_seconds := -18000 |} |} |}.
Proof. vm_compute. reflexivity. Qed.

Example roundtrip_2021 :
  roundtrip_within_one_microsecond (fixed_offset_localtime 3600) 1612345678.25
  = true.
Proof. vm_compute. reflexivity. Qed.

Example roundtrip_before_epoch :
  roundtrip_within_one_microsecond (fixed_offset_localtime (-18000)) (-0.5)
  = true.
Proof. vm_compute. reflexivity. Qed.

(** A hundredth of a microsecond before the epoch: [floor] is -1 and the
    fraction rounds to 1000000 microseconds. *)
Example TimestampFromTicks_just_before_epoch :
  TimestampFromTicks utc_localtime (PrimFloat.opp (PrimFloat.div 1 100000000))
  = Raise ValueError.
Proof. vm_compute. reflexivity. Qed.

Example TimestampFromTicks_out_of_range :
  TimestampFromTicks utc_localtime 253402300800 = Raise OSError.
Proof. vm_compute. reflexivity. Qed.

Example text_dump_without_connection :
  (self ← BinaryTextDumper.__init__ "Binary" None;
   BinaryTextDumper.dump hex_escape self
     (Binary.__init__ (PyBytes [x00; x01; xff]%byte)))
  = hex_escape context_free [x00; x01; xff]%byte.
Proof. reflexivity. Qed.

Example text_dump_with_connection :
  (self ← BinaryTextDumper.__init__ "Binary" (Some live_context);
   BinaryTextDumper.dump hex_escape self
     (Binary.__init__ (PyBytes [x00; x01; xff]%byte)))
  = hex_escape {| esc_conn := Some tt |} [x00; x01; xff]%byte.
Proof. reflexivity. Qed.

Example type_objects_of_the_module :
  BINARY pg_types
  = Ok {| DBAPITypeObject.name := "BINARY"; DBAPITypeObject.values := [17] |}
  /\ ROWID pg_types
     = Ok {| DBAPITypeObject.name := "ROWID"; DBAPITypeObject.values := [26] |}
  /\ DATETIME pg_types
     = Ok {| DBAPITypeObject.name := "DATETIME";
             DBAPITypeObject.values := [1114; 1184; 1082; 1083; 1266; 1186] |}
  /\ NUMBER pg_types
     = Ok {| DBAPITypeObject.name := "NUMBER";
             DBAPITypeObject.values := [21; 23; 20; 700; 701; 1700] |}.
Proof. vm_compute. repeat split; reflexivity. Qed.


(** * Further properties *)

(** ** The type objects of the module *)

Section ModuleFacts.
Variable builtins : gmap string TypeInfo.

Lemma init_Raise_KeyError name type_names e :
  DBAPITypeObject.__init__ builtins name type_names = Raise e -> e = KeyError.
Proof.
  unfold DBAPITypeObject.__init__.
  destruct (mapM _ type_names) as [vals|e'] eqn:Hm; simpl; [discriminate|].
  intros [= <-].
  revert e' Hm. induction type_names as [|n ns IH]; simpl; intros e'.
  - discriminate.
  - destruct (registry_getitem builtins n) as [i|e0] eqn:Hn; simpl.
    + destruct (mapM _ ns) as [k|e1]; simpl; [discriminate|].
      intros [= <-]. apply (IH e1). reflexivity.
    + intros [= <-]. apply registry_getitem_Raise in Hn. tauto.
Qed.

Lemma init_Ok_iff name type_names :
  is_Ok (DBAPITypeObject.__init__ builtins name type_names)
  <-> Forall (fun n => is_Some (builtins !! n)) type_names.
Proof.
  split.
  - intros [cat Hcat]. apply init_values in Hcat as [_ H].
    induction H as [|n v ns vs Hn _ IH]; constructor; [|exact IH].
    destruct (builtins !! n); [eauto | discriminate].
  - intros Hall.
    assert (is_Ok (mapM (fun n => oid <$> registry_getitem builtins n) type_names))
      as [vals Hvals].
    { apply mapM_total. eapply Forall_impl; [exact Hall|].
      intros n [info Hn]. exists (oid info).
      unfold registry_getitem. rewrite Hn. reflexivity. }
    unfold DBAPITypeObject.__init__. rewrite Hvals. eexists. reflexivity.
Qed.

Lemma load_Ok_inv m :
  load builtins = Ok m ->
  Forall2 (fun cat names =>
             exists name, DBAPITypeObject.__init__ builtins name names = Ok cat)
    (type_objects m) category_names
  /\ oid <$> builtins !! "bytea"%string = Some (m_bytea_oid m).
Proof.
  unfold load. intros H.
  apply bind_Ok_inv in H as (b & Hb & H).
  apply bind_Ok_inv in H as (d & Hd & H).
  apply bind_Ok_inv in H as (n & Hn & H).
  apply bind_Ok_inv in H as (r & Hr & H).
  apply bind_Ok_inv in H as (s & Hs & H).
  apply bind_Ok_inv in H as (o & Ho & H).
  injection H as <-. unfold type_objects, category_names. simpl. split.
  - repeat constructor; eexists; eassumption.
  - apply lookup_oid_Ok. exact Ho.
Qed.
End ModuleFacts.

Lemma category_names_disjoint : pairwise_disjoint category_names.
Proof.
  intros i j l1 l2 n Hij Hi Hj H1 H2.
  assert (forallb (fun a => forallb (fun b => negb (String.eqb a b)) l2) l1 = true)
    as Hdis.
  { do 5 (destruct i as [|i]; [do 5 (destruct j as [|j];
       [first [congruence | injection Hi as <-; injection Hj as <-;
                            vm_compute; reflexivity]|]);
       destruct j; discriminate|]).
    destruct i; discriminate. }
  rewrite forallb_forall in Hdis.
  apply list_elem_of_In in H1, H2.
  specialize (Hdis n H1). rewrite forallb_forall in Hdis.
  specialize (Hdis n H2). rewrite String.eqb_refl in Hdis. discriminate.
Qed.

(** X1. The module loads exactly when the registry has every type name the
    module looks up, and a loading that fails fails with [KeyError]. *)
Theorem load_iff_names_present (builtins : gmap string TypeInfo) :
  (is_Ok (load builtins)
   <-> Forall (fun n => is_Some (builtins !! n)) module_type_names)
  /\ (forall e, load builtins = Raise e -> e = KeyError).
Proof.
  split; [split|].
  - intros [m Hm]. apply load_Ok_inv in Hm as [Hobjs _].
    unfold module_type_names. apply Forall_concat.
    induction Hobjs as [|cat names cats ls [name Hcat] _ IH]; constructor;
      [|exact IH].
    apply (init_Ok_iff builtins name). eexists. exact Hcat.
  - unfold module_type_names, category_names. simpl. intros Hall.
    assert (forall name names,
              Forall (fun n => n ∈ concat category_names) names ->
              is_Ok (DBAPITypeObject.__init__ builtins name names)) as Hinit.
    { intros name names Hin. apply init_Ok_iff.
      eapply Forall_impl; [exact Hin|]. intros n Hn.
      rewrite Forall_forall in Hall. apply Hall. exact Hn. }
    unfold load, BINARY, DATETIME, NUMBER, ROWID, STRING.
    destruct (Hinit "BINARY"%string ["bytea"]%string) as [b ->];
      [repeat constructor; vm_compute; set_solver|].
    destruct (Hinit "DATETIME"%string
                ["timestamp"; "timestamptz"; "date"; "time"; "timetz";
                 "interval"]%string) as [d ->];
      [repeat constructor; vm_compute; set_solver|].
    destruct (Hinit "NUMBER"%string
                ["int2"; "int4"; "int8"; "float4"; "float8"; "numeric"]%string)
      as [n ->]; [repeat constructor; vm_compute; set_solver|].
    destruct (Hinit "ROWID"%string ["oid"]%string) as [r ->];
      [repeat constructor; vm_compute; set_solver|].
    destruct (Hinit "STRING"%string ["text"; "varchar"; "bpchar"]%string)
      as [s ->]; [repeat constructor; vm_compute; set_solver|].
    simpl. unfold BinaryBinaryDumper._oid, registry_getitem.
    apply Forall_inv in Hall as [info ->]. simpl. eexists. reflexivity.
  - intros e. unfold load, BINARY, DATETIME, NUMBER, ROWID, STRING.
    repeat match goal with
    | |- context [DBAPITypeObject.__init__ builtins ?name ?names] =>
        let H := fresh "H" in
        destruct (DBAPITypeObject.__init__ builtins name names) eqn:H; simpl;
        [|intros [= <-]; eapply init_Raise_KeyError; exact H]
    end.
    unfold BinaryBinaryDumper._oid.
    destruct (registry_getitem builtins "bytea") as [i|e'] eqn:Hg; simpl;
      [discriminate|].
    intros [= <-]. apply registry_getitem_Raise in Hg. tauto.
Qed.

Lemma load_iff_names_present_witness :
  is_Ok (load pg_types)
  /\ load pg_types_without_bytea = Raise KeyError.
Proof.
  split.
  - apply (proj1 (load_iff_names_present pg_types)).
    unfold module_type_names. simpl.
    repeat constructor; vm_compute; eauto.
  - destruct (load pg_types_without_bytea) as [m|e] eqn:H.
    + vm_compute in H. discriminate H.
    + f_equal.
      exact (proj2 (load_iff_names_present pg_types_without_bytea) e H).
Defined.

(** X2. In a registry that gives different oids to different names, no
    integer equals two of the five type objects of the module: a column
    type belongs to at most one category. *)
Theorem type_objects_disjoint
    (builtins : gmap string TypeInfo) (m : dbapi20)
    (Hload : load builtins = Ok m) (Hinj : oid_injective builtins)
    (i j : nat) (a b : DBAPITypeObject.t) (other : PyObj) :
  i <> j ->
  type_objects m !! i = Some a ->
  type_objects m !! j = Some b ->
  DBAPITypeObject.__eq__ a other = DBAPITypeObject.Bool true ->
  DBAPITypeObject.__eq__ b other <> DBAPITypeObject.Bool true.
Proof.
  intros Hij Ha Hb Heqa Heqb.
  apply load_Ok_inv in Hload as [Hobjs _].
  destruct (Forall2_lookup_l _ _ _ _ _ Hobjs Ha) as (l1 & Hl1 & name1 & Hinit1).
  destruct (Forall2_lookup_l _ _ _ _ _ Hobjs Hb) as (l2 & Hl2 & name2 & Hinit2).
  unfold DBAPITypeObject.__eq__ in Heqa, Heqb.
  destruct (as_int other) as [x|]; [|discriminate].
  injection Heqa as Heqa. injection Heqb as Heqb.
  apply tuple_contains_elem_of in Heqa, Heqb.
  apply (init_member builtins name1 l1 a x Hinit1) in Heqa
    as (n1 & i1 & Hn1 & Hi1 & Ho1).
  apply (init_member builtins name2 l2 b x Hinit2) in Heqb
    as (n2 & i2 & Hn2 & Hi2 & Ho2).
  assert (n1 = n2) as -> by (apply (Hinj n1 n2 i1 i2); congruence).
  exact (category_names_disjoint i j l1 l2 n2 Hij Hl1 Hl2 Hn1 Hn2).
Qed.

Lemma pg_types_oid_injective : oid_injective pg_types.
Proof.
  intros n1 n2 i1 i2 H1 H2 Hoid.
  apply elem_of_list_to_map_2 in H1, H2. simpl in H1, H2.
  repeat (apply elem_of_cons in H1 as [H1|H1]; [injection H1 as -> ->|]);
    [..|inversion H1];
    (repeat (apply elem_of_cons in H2 as [H2|H2]; [injection H2 as -> ->|]);
     [..|inversion H2]); first [reflexivity | discriminate Hoid].
Qed.

Lemma type_objects_disjoint_witness :
  load pg_types = Ok pg_module
  /\ oid_injective pg_types
  /\ DBAPITypeObject.__eq__ (m_STRING pg_module) (PyInt 25)
     = DBAPITypeObject.Bool true
  /\ DBAPITypeObject.__eq__ (m_NUMBER pg_module) (PyInt 25)
     <> DBAPITypeObject.Bool true.
Proof.
  assert (load pg_types = Ok pg_module) as Hload by (vm_compute; reflexivity).
  split; [exact Hload|]. split; [exact pg_types_oid_injective|].
  split; [reflexivity|].
  apply (type_objects_disjoint pg_types pg_module Hload pg_types_oid_injective
           4%nat 2%nat (m_STRING pg_module) (m_NUMBER pg_module) (PyInt 25));
    [lia | reflexivity | reflexivity | reflexivity].
Defined.

(** X3. A type object built from no names is built whatever the registry
    holds, even an empty one; it equals no integer and differs from every
    integer. *)
Theorem DBAPITypeObject_of_no_names
    (builtins : gmap string TypeInfo) (name : string) :
  exists cat,
    DBAPITypeObject.__init__ builtins name [] = Ok cat
    /\ forall other,
         if isinstance_int other
         then DBAPITypeObject.__eq__ cat other = DBAPITypeObject.Bool false
              /\ DBAPITypeObject.__ne__ cat other = DBAPITypeObject.Bool true
         else DBAPITypeObject.__eq__ cat other = DBAPITypeObject.NotImplemented.
Proof.
  eexists. split; [reflexivity|].
  intros other. unfold isinstance_int.
  unfold DBAPITypeObject.__eq__, DBAPITypeObject.__ne__.
  destruct (as_int other); [split; reflexivity | reflexivity].
Qed.

(** X4. The [repr] of a type object that was built is ["psycopg3."]
    followed by the name it was built with, whatever the type names and the
    registry; two type objects with the same [repr] have the same name. *)
Theorem DBAPITypeObject_repr_of_init
    (builtins : gmap string TypeInfo) (name : string)
    (type_names : list string) (cat : DBAPITypeObject.t)
    (Hcat : DBAPITypeObject.__init__ builtins name type_names = Ok cat) :
  DBAPITypeObject.__repr__ cat = "psycopg3." +:+ name
  /\ forall cat',
       DBAPITypeObject.__repr__ cat' = DBAPITypeObject.__repr__ cat ->
       DBAPITypeObject.name cat' = name.
Proof.
  apply init_values in Hcat as [Hname _].
  unfold DBAPITypeObject.__repr__. rewrite Hname. split; [reflexivity|].
  intros cat' H. cbv [String.append] in H. congruence.
Qed.

Lemma DBAPITypeObject_repr_of_init_witness :
  STRING pg_types = Ok STRING_pg
  /\ DBAPITypeObject.__repr__ STRING_pg = "psycopg3.STRING"%string.
Proof.
  assert (STRING pg_types = Ok STRING_pg) as H by (vm_compute; reflexivity).
  split; [exact H|].
  exact (proj1 (DBAPITypeObject_repr_of_init pg_types "STRING"
                  ["text"; "varchar"; "bpchar"]%string STRING_pg H)).
Defined.

(** ** The diagnostic string of the wrapper *)

Section ReprLengthFacts.

Lemma length_append (a b : string) :
  String.length (a +:+ b) = (String.length a + String.length b)%nat.
Proof. induction a as [|c a IH]; simpl; [reflexivity | rewrite IH; reflexivity]. Qed.

Lemma str_of_len_two_digits (n : nat) :
  (10 <= n <= 99)%nat -> String.length (Binary.str_of_len n) = 2%nat.
Proof.
  intros Hn.
  assert (forallb (fun k => Nat.eqb (String.length (Binary.str_of_len k)) 2)
            (seq 10 90) = true) as Hall by (vm_compute; reflexivity).
  rewrite forallb_forall in Hall.
  apply Nat.eqb_eq, Hall, in_seq. lia.
Qed.

(** The decimal digits of a length read back as that length. *)
Lemma str_of_len_reads_back (n : nat) :
  Nat.of_uint <$> NilEmpty.uint_of_string (Binary.str_of_len n) = Some n.
Proof.
  unfold Binary.str_of_len. rewrite NilEmpty.usu. simpl.
  f_equal. apply DecimalNat.Unsigned.of_to.
Qed.
End ReprLengthFacts.

(** X5. The length of the diagnostic string: the class name, two
    parentheses and the representation when it has at most 40 characters;
    the class name and 55 characters more than the digits of the count when
    it is abbreviated. A representation of 41 to 54 characters is therefore
    printed longer than it would be in full. *)
Theorem Binary_repr_length (py_repr : PyObj -> string) (self : Binary.t) :
  let n := String.length (py_repr (Binary.obj self)) in
  let total := String.length (Binary.__repr__ py_repr self) in
  let cls := String.length (Binary.cls_name self) in
  ((n <= 40)%nat -> total = (cls + n + 2)%nat)
  /\ ((40 < n)%nat ->
      total = (cls + 55 + String.length (Binary.str_of_len n))%nat)
  /\ ((41 <= n <= 54)%nat -> (cls + n + 2 < total)%nat).
Proof.
  intros n total cls.
  assert ((40 < n)%nat ->
          total = (cls + 55 + String.length (Binary.str_of_len n))%nat) as Hlong.
  { intros Hn. subst total cls. unfold Binary.__repr__. fold n.
    destruct (Nat.ltb_spec 40 n); [|lia].
    destruct (substring_prefix 35 (py_repr (Binary.obj self))) as [H35 _];
      [fold n; lia|].
    rewrite !length_append, H35. simpl. lia. }
  split; [|split].
  - intros Hn. subst total cls. unfold Binary.__repr__. fold n.
    destruct (Nat.ltb_spec 40 n); [lia|].
    rewrite !length_append. fold n. simpl. lia.
  - exact Hlong.
  - intros Hn. rewrite Hlong by lia.
    rewrite str_of_len_two_digits by lia. lia.
Qed.

Lemma Binary_repr_length_witness :
  String.length (Binary.__repr__ repr40 (Binary.__init__ PyNone)) = 48%nat
  /\ String.length (Binary.__repr__ repr41 (Binary.__init__ PyNone)) = 63%nat
  /\ (6 + 41 + 2 < String.length
                     (Binary.__repr__ repr41 (Binary.__init__ PyNone)))%nat.
Proof.
  split; [|split].
  - apply (proj1 (Binary_repr_length repr40 (Binary.__init__ PyNone))).
    simpl. lia.
  - apply (proj1 (proj2 (Binary_repr_length repr41 (Binary.__init__ PyNone)))).
    simpl. lia.
  - apply (proj2 (proj2 (Binary_repr_length repr41 (Binary.__init__ PyNone)))).
    simpl. lia.
Defined.

(** X6. The count printed in an abbreviated diagnostic string is the decimal
    numeral of the length of the whole representation: read as a number it
    is that length. *)
Theorem Binary_repr_count_reads_back
    (py_repr : PyObj -> string) (self : Binary.t)
    (Hlong : (40 < String.length (py_repr (Binary.obj self)))%nat) :
  exists head count,
    Binary.__repr__ py_repr self
    = Binary.cls_name self +:+ "("
      +:+ (head +:+ " ... (" +:+ count +:+ " byteschars)") +:+ ")"
    /\ head = substring 0 35 (py_repr (Binary.obj self))
    /\ Nat.of_uint <$> NilEmpty.uint_of_string count
       = Some (String.length (py_repr (Binary.obj self))).
Proof.
  exists (substring 0 35 (py_repr (Binary.obj self))),
         (Binary.str_of_len (String.length (py_repr (Binary.obj self)))).
  split; [|split; [reflexivity | apply str_of_len_reads_back]].
  unfold Binary.__repr__.
  destruct (Nat.ltb_spec 40 (String.length (py_repr (Binary.obj self))));
    [reflexivity | lia].
Qed.

Lemma Binary_repr_count_reads_back_witness :
  (40 < String.length (repr41 PyNone))%nat
  /\ exists head count,
       Binary.__repr__ repr41 (Binary.__init__ PyNone)
       = "Binary" +:+ "("
         +:+ (head +:+ " ... (" +:+ count +:+ " byteschars)") +:+ ")"
       /\ head = substring 0 35 (repr41 PyNone)
       /\ Nat.of_uint <$> NilEmpty.uint_of_string count = Some 41%nat.
Proof.
  assert (40 < String.length (repr41 PyNone))%nat as H by (simpl; lia).
  split; [exact H|].
  exact (Binary_repr_count_reads_back repr41 (Binary.__init__ PyNone) H).
Defined.

(** ** The payloads of the dumpers *)

Section PayloadFacts.

Lemma byte_of_item_int_Raise z e :
  byte_of_item (PyInt z) = Raise e -> e = ValueError /\ ~ (0 <= z < 256).
Proof.
  unfold byte_of_item, byte_of_int. simpl.
  destruct (Z.leb_spec 0 z), (Z.ltb_spec z 256); simpl;
    try (intros [= <-]; split; [reflexivity | lia]).
  destruct (Byte.of_N (Z.to_N z)) as [b|] eqn:Hb; [discriminate|].
  apply Byte.of_N_None_iff in Hb. lia.
Qed.

Lemma mapM_byte_of_ints zs bs :
  mapM byte_of_item (PyInt <$> zs) = Ok bs ->
  (fun b => Z.of_N (Byte.to_N b)) <$> bs = zs.
Proof.
  intros H. apply mapM_Ok_Forall2 in H.
  apply Forall2_fmap_l in H.
  induction H as [|z b zs bs Hz _ IH]; simpl; [reflexivity|].
  unfold byte_of_item in Hz. simpl in Hz.
  apply byte_of_int_Ok in Hz as [Hrange ->].
  rewrite Z2N.id by lia. f_equal. exact IH.
Qed.

Lemma zero_bytes_Ok n bs :
  zero_bytes n = Ok bs ->
  0 <= n /\ Z.of_nat (length bs) = n /\ Forall (fun b => b = x00%byte) bs.
Proof.
  unfold zero_bytes. destruct (_ || _); [discriminate|].
  destruct (Z.ltb_spec n 0); [discriminate|].
  intros [= <-]. rewrite repeat_length. split; [lia|]. split; [lia|].
  apply Forall_forall. intros b Hb. apply list_elem_of_In in Hb.
  eapply repeat_spec. exact Hb.
Qed.
End PayloadFacts.

(** X7. A list or a tuple of integers that are all in [range(0, 256)] is
    dumped to the bytes with those values, one byte for each integer and in
    the same order, the same for the list and for the tuple. *)
Theorem BinaryBinaryDumper_dump_small_ints {PGconn : Type}
    (self : Dumper PGconn) (zs : list Z)
    (Hrange : Forall (fun z => 0 <= z < 256) zs) :
  exists bs,
    BinaryBinaryDumper.dump self (Binary.__init__ (PyList (PyInt <$> zs)))
      = Ok bs
    /\ BinaryBinaryDumper.dump self (Binary.__init__ (PyTuple (PyInt <$> zs)))
       = Ok bs
    /\ (fun b => Z.of_N (Byte.to_N b)) <$> bs = zs.
Proof.
  destruct (py_bytes_of_small_ints zs Hrange) as [bs Hbs].
  exists bs. simpl in *. repeat split; try exact Hbs.
  apply mapM_byte_of_ints. exact Hbs.
Qed.

Lemma BinaryBinaryDumper_dump_small_ints_witness :
  Forall (fun z => 0 <= z < 256) [0; 1; 255]
  /\ exists bs,
       BinaryBinaryDumper.dump plain_dumper
         (Binary.__init__ (PyList (PyInt <$> [0; 1; 255]))) = Ok bs
       /\ BinaryBinaryDumper.dump plain_dumper
            (Binary.__init__ (PyTuple (PyInt <$> [0; 1; 255]))) = Ok bs
       /\ (fun b => Z.of_N (Byte.to_N b)) <$> bs = [0; 1; 255].
Proof.
  assert (Forall (fun z => 0 <= z < 256) [0; 1; 255]) as H
    by (repeat constructor; lia).
  split; [exact H|].
  exact (BinaryBinaryDumper_dump_small_ints plain_dumper [0; 1; 255] H).
Defined.

(** X8. A list or a tuple of integers of which one is outside
    [range(0, 256)] is not dumped: both raise [ValueError], and no byte is
    wrapped around or cut. *)
Theorem BinaryBinaryDumper_dump_item_out_of_range {PGconn : Type}
    (self : Dumper PGconn) (zs : list Z)
    (Hout : Exists (fun z => ~ (0 <= z < 256)) zs) :
  BinaryBinaryDumper.dump self (Binary.__init__ (PyList (PyInt <$> zs)))
    = Raise ValueError
  /\ BinaryBinaryDumper.dump self (Binary.__init__ (PyTuple (PyInt <$> zs)))
     = Raise ValueError.
Proof.
  assert (mapM byte_of_item (PyInt <$> zs) = Raise ValueError) as H.
  { apply mapM_Raise_uniform.
    - apply Forall_fmap, Forall_forall. intros z _ e He.
      apply byte_of_item_int_Raise in He. tauto.
    - apply Exists_fmap. eapply Exists_impl; [exact Hout|].
      intros z Hz. simpl.
      destruct (byte_of_item (PyInt z)) as [b|e] eqn:Hb; [|eauto].
      unfold byte_of_item in Hb. simpl in Hb.
      apply byte_of_int_Ok in Hb as [Hb _]. exfalso. exact (Hz Hb). }
  split; exact H.
Qed.

Lemma BinaryBinaryDumper_dump_item_out_of_range_witness :
  Exists (fun z => ~ (0 <= z < 256)) [0; 256; 1]
  /\ BinaryBinaryDumper.dump plain_dumper
       (Binary.__init__ (PyList (PyInt <$> [0; 256; 1]))) = Raise ValueError
  /\ BinaryBinaryDumper.dump plain_dumper
       (Binary.__init__ (PyTuple (PyInt <$> [0; 256; 1]))) = Raise ValueError.
Proof.
  assert (Exists (fun z => ~ (0 <= z < 256)) [0; 256; 1]) as H
    by (apply Exists_cons_tl, Exists_cons_hd; lia).
  split; [exact H|].
  exact (BinaryBinaryDumper_dump_item_out_of_range plain_dumper [0; 256; 1] H).
Defined.



(** X10. Dumping is idempotent on what it returns: the bytes of a binary
    dump, wrapped again, are dumped to themselves, and their text dump is
    the text dump of the first wrapper. *)
Theorem dump_of_dumped_bytes {PGconn : Type}
    (escape_bytea : Escaping PGconn -> list byte -> result (list byte))
    (self : BinaryTextDumper.t PGconn) (binary : Dumper PGconn)
    (obj : Binary.t) (data : list byte)
    (Hdump : BinaryBinaryDumper.dump binary obj = Ok data) :
  BinaryBinaryDumper.dump binary (Binary.__init__ (PyBytes data)) = Ok data
  /\ BinaryTextDumper.dump escape_bytea self (Binary.__init__ (PyBytes data))
     = BinaryTextDumper.dump escape_bytea self obj.
Proof.
  split; [reflexivity|].
  unfold BinaryTextDumper.dump.
  rewrite (BinaryBinaryDumper_dump_any (BinaryTextDumper.base self) binary obj).
  rewrite Hdump. reflexivity.
Qed.

Lemma dump_of_dumped_bytes_witness :
  BinaryBinaryDumper.dump plain_dumper
    (Binary.__init__ (PyByteArray [x00; x01; xff]%byte))
    = Ok [x00; x01; xff]%byte
  /\ BinaryBinaryDumper.dump plain_dumper
       (Binary.__init__ (PyBytes [x00; x01; xff]%byte))
     = Ok [x00; x01; xff]%byte
  /\ BinaryTextDumper.dump hex_escape
       {| BinaryTextDumper.base := plain_dumper;
          BinaryTextDumper._esc := context_free |}
       (Binary.__init__ (PyBytes [x00; x01; xff]%byte))
     = BinaryTextDumper.dump hex_escape
         {| BinaryTextDumper.base := plain_dumper;
            BinaryTextDumper._esc := context_free |}
         (Binary.__init__ (PyByteArray [x00; x01; xff]%byte)).
Proof.
  assert (BinaryBinaryDumper.dump plain_dumper
            (Binary.__init__ (PyByteArray [x00; x01; xff]%byte))
          = Ok [x00; x01; xff]%byte) as H by reflexivity.
  split; [exact H|].
  exact (dump_of_dumped_bytes hex_escape
           {| BinaryTextDumper.base := plain_dumper;
              BinaryTextDumper._esc := context_free |}
           plain_dumper _ _ H).
Defined.

(** X11. A payload that is a [str], [None] or a [float] is never dumped:
    the binary dumper raises [TypeError], and so does the text dumper,
    whatever its escaping does. A string is not encoded on the way. *)
Theorem dump_rejects_unsized_payloads {PGconn : Type}
    (escape_bytea : Escaping PGconn -> list byte -> result (list byte))
    (self : BinaryTextDumper.t PGconn) (binary : Dumper PGconn) :
  let binary_dump o := BinaryBinaryDumper.dump binary (Binary.__init__ o) in
  let text_dump o :=
    BinaryTextDumper.dump escape_bytea self (Binary.__init__ o) in
  (forall s, binary_dump (PyStr s) = Raise TypeError
             /\ text_dump (PyStr s) = Raise TypeError)
  /\ (binary_dump PyNone = Raise TypeError /\ text_dump PyNone = Raise TypeError)
  /\ (forall f, binary_dump (PyFloat f) = Raise TypeError
                /\ text_dump (PyFloat f) = Raise TypeError).
Proof. repeat split. Qed.

(** X12. In every context the construction of the text dumper returns a
    dumper, and the connection its escaping object holds is the [pgconn] of
    the connection of the dumper: none when the dumper has no connection.
    The attribute [pgconn] is never read from [None]. *)
Theorem BinaryTextDumper_init_escaping_connection {PGconn : Type}
    (cls : string) (context : option (AdaptContext PGconn)) :
  exists self,
    BinaryTextDumper.__init__ cls context = Ok self
    /\ Dumper_init cls context = Ok (BinaryTextDumper.base self)
    /\ Escaping_init (pgconn <$> dumper_connection (BinaryTextDumper.base self))
       = Ok (BinaryTextDumper._esc self).
Proof.
  unfold BinaryTextDumper.__init__, Dumper_init. simpl.
  destruct (context ≫= connection) as [c|]; simpl;
    eexists; repeat split; reflexivity.
Qed.

(** ** Dates, times and timestamps *)

Section ConstructorFacts.

Lemma datetime_new_Ok_iff y mo d h mi s us tz dt :
  datetime_new y mo d h mi s us tz = Ok dt
  <-> _check_date_fields y mo d = true
      /\ _check_time_fields h mi s us = true
      /\ dt = {| year := y; month := mo; day := d; hour := h; minute := mi;
                 second := s; microsecond := us; tzinfo := tz |}.
Proof.
  unfold datetime_new.
  destruct (_check_date_fields y mo d), (_check_time_fields h mi s us); simpl;
    split; try discriminate; try (intros (? & ? & _); discriminate).
  - intros [= <-]. auto.
  - intros (_ & _ & ->). reflexivity.
Qed.

Lemma datetime_new_Raise y mo d h mi s us tz e :
  datetime_new y mo d h mi s us tz = Raise e -> e = ValueError.
Proof.
  unfold datetime_new. destruct (_ && _); [discriminate | congruence].
Qed.

Lemma float_of_int_Raise n e : float_of_int n = Raise e -> e = OverflowError.
Proof.
  unfold float_of_int.
  destruct (binary_normalize prec emax n 0 false); congruence.
Qed.

Lemma time_localtime_in_range (localtime_r : Z -> result struct_time) ticks secs :
  math_floor ticks = Ok secs ->
  time_localtime localtime_r ticks
  = if (time_t_min <=? secs) && (secs <=? time_t_max)
    then localtime_r secs else Raise OverflowError.
Proof.
  unfold math_floor, time_localtime.
  destruct (view ticks) as [|s|m e]; try discriminate.
  intros [= <-]. reflexivity.
Qed.
End ConstructorFacts.


(** X14. [TimestampFromTicks] returns a timestamp exactly when [ticks] is
    finite with its whole seconds in the range of [time_t], the clock
    answers for those whole seconds with an offset of less than a day and
    with fields that make a valid date and time, and the fraction rounds to
    0..999999 microseconds. The timestamp then has the fields of the clock,
    that number of microseconds, and the offset of the clock as its time
    zone: it is never naive. *)
Theorem TimestampFromTicks_Ok_iff
    (localtime_r : Z -> result struct_time) (ticks : float) (dt : datetime) :
  TimestampFromTicks localtime_r ticks = Ok dt
  <-> exists secs us t,
        math_floor ticks = Ok secs
        /\ fraction_microseconds ticks = Ok us
        /\ time_t_min <= secs <= time_t_max
        /\ localtime_r secs = Ok t
        /\ -86400 < tm_gmtoff t < 86400
        /\ _check_date_fields (tm_year t) (tm_mon t) (tm_mday t) = true
        /\ _check_time_fields (tm_hour t) (tm_min t) (tm_sec t) us = true
        /\ dt = {| year := tm_year t; month := tm_mon t; day := tm_mday t;
                   hour := tm_hour t; minute := tm_min t; second := tm_sec t;
                   microsecond := us;
                   tzinfo := Some {| utcoffset :=
                                       {| td_seconds := tm_gmtoff t |} |} |}.
Proof.
  split.
  - intros H.
    apply TimestampFromTicks_Ok_inv in H
      as (t & us & tz & Ht & Hus & Hoff & -> & Hnew).
    apply datetime_new_Ok_iff in Hnew as (Hdate & Htime & ->).
    destruct (math_floor ticks) as [secs|e] eqn:Hsecs.
    + rewrite (time_localtime_in_range _ _ secs Hsecs) in Ht.
      destruct (Z.leb_spec time_t_min secs), (Z.leb_spec secs time_t_max);
        simpl in Ht; try discriminate.
      exists secs, us, t. repeat split; auto; lia.
    + unfold fraction_microseconds in Hus. rewrite Hsecs in Hus. discriminate.
  - intros (secs & us & t & Hsecs & Hus & Hrange & Ht & Hoff & Hdate & Htime & ->).
    unfold fraction_microseconds in Hus. rewrite Hsecs in Hus.
    apply bind_Ok_inv in Hus as (secs' & [= <-] & Hus).
    apply bind_Ok_inv in Hus as (frac & Hfrac & Hus).
    apply bind_Ok_inv in Hus as (scaled & Hscaled & Hus).
    unfold TimestampFromTicks.
    rewrite Hsecs. cbn [mbind result_bind]. rewrite Hfrac.
    cbn [mbind result_bind].
    rewrite (time_localtime_in_range _ _ secs Hsecs).
    destruct (Z.leb_spec time_t_min secs), (Z.leb_spec secs time_t_max);
      try lia.
    cbn [andb]. rewrite Ht. cbn [mbind result_bind].
    unfold timedelta_of_seconds.
    destruct (Z.leb_spec (Z.abs (tm_gmtoff t / 86400)) 999999999) as [_|Hbig];
      [|exfalso; revert Hbig; Z.div_mod_to_equations; lia].
    cbn [mbind result_bind]. unfold timezone_new. cbn [td_seconds].
    destruct (Z.ltb_spec (-86400) (tm_gmtoff t)),
      (Z.ltb_spec (tm_gmtoff t) 86400); try lia.
    cbn [andb mbind result_bind]. rewrite Hscaled.
    cbn [mbind result_bind]. rewrite Hus. cbn [mbind result_bind].
    apply datetime_new_Ok_iff. auto.
Qed.

(** X15. What the three functions return is valid: the fields of a
    timestamp from ticks are arguments [Timestamp] accepts, its microsecond
    is in 0..999999, a date from ticks is one [Date] returns for its own
    fields, and the hour, minute and second of a time from ticks are
    arguments [Time] accepts. *)
Theorem from_ticks_results_valid
    (localtime_r : Z -> result struct_time) (ticks : float) :
  (forall dt, TimestampFromTicks localtime_r ticks = Ok dt ->
     is_Ok (Timestamp (year dt) (month dt) (day dt)
              (hour dt) (minute dt) (second dt))
     /\ 0 <= microsecond dt <= 999999)
  /\ (forall da, DateFromTicks localtime_r ticks = Ok da ->
        Date (d_year da) (d_month da) (d_day da) = Ok da)
  /\ (forall ti, TimeFromTicks localtime_r ticks = Ok ti ->
        is_Ok (Time (t_hour ti) (t_minute ti) (t_second ti))
        /\ 0 <= t_microsecond ti <= 999999).
Proof.
  assert (forall dt, TimestampFromTicks localtime_r ticks = Ok dt ->
            _check_date_fields (year dt) (month dt) (day dt) = true
            /\ _check_time_fields (hour dt) (minute dt) (second dt) 0 = true
            /\ 0 <= microsecond dt <= 999999) as Hvalid.
  { intros dt H.
    apply TimestampFromTicks_Ok_iff in H
      as (secs & us & t & _ & _ & _ & _ & _ & Hdate & Htime & ->).
    simpl. split; [exact Hdate|].
    unfold _check_time_fields in *.
    destruct (Z.leb_spec 0 (tm_hour t)), (Z.leb_spec (tm_hour t) 23),
      (Z.leb_spec 0 (tm_min t)), (Z.leb_spec (tm_min t) 59),
      (Z.leb_spec 0 (tm_sec t)), (Z.leb_spec (tm_sec t) 59),
      (Z.leb_spec 0 us), (Z.leb_spec us 999999); simpl in *;
      try discriminate.
    split; [reflexivity | lia]. }
  split; [|split].
  - intros dt H. apply Hvalid in H as (Hdate & Htime & Hus).
    split; [|exact Hus].
    unfold Timestamp, datetime_new. rewrite Hdate, Htime. eexists. reflexivity.
  - intros da H. unfold DateFromTicks in H.
    apply fmap_Ok_inv in H as (dt & H & ->).
    apply Hvalid in H as (Hdate & _). simpl.
    unfold Date, date_new. rewrite Hdate. reflexivity.
  - intros ti H. unfold TimeFromTicks in H.
    apply fmap_Ok_inv in H as (dt & H & ->).
    apply Hvalid in H as (_ & Htime & Hus). simpl. split; [|exact Hus].
    unfold Time, time_new. rewrite Htime. eexists. reflexivity.
Qed.

Lemma from_ticks_results_valid_witness :
  TimestampFromTicks (fixed_offset_localtime 3600) 1612345678.25
    = Ok {| year := 2021; month := 2; day := 3;
            hour := 10; minute := 47; second := 58; microsecond := 250000;
            tzinfo := Some {| utcoffset := {| td_seconds := 3600 |} |} |}
  /\ is_Ok (Timestamp 2021 2 3 10 47 58)
  /\ Date 2021 2 3 = Ok {| d_year := 2021; d_month := 2; d_day := 3 |}
  /\ is_Ok (Time 10 47 58).
Proof.
  pose proof (from_ticks_results_valid (fixed_offset_localtime 3600)
                1612345678.25) as (Hts & Hda & Hti).
  split; [vm_compute; reflexivity|]. split; [|split].
  - apply (Hts {| year := 2021; month := 2; day := 3;
                  hour := 10; minute := 47; second := 58;
                  microsecond := 250000;
                  tzinfo := Some {| utcoffset := {| td_seconds := 3600 |} |} |}).
    vm_compute. reflexivity.
  - apply (Hda {| d_year := 2021; d_month := 2; d_day := 3 |}).
    vm_compute. reflexivity.
  - apply (Hti {| t_hour := 10; t_minute := 47; t_second := 58;
                  t_microsecond := 250000 |}).
    vm_compute. reflexivity.
Defined.

(** X16. Ticks that are not finite are rejected before the clock is asked:
    a NaN raises [ValueError] and an infinity raises [OverflowError], in
    the timestamp, the date and the time from ticks alike, whatever the
    clock. *)
Theorem from_ticks_not_finite
    (localtime_r : Z -> result struct_time) (ticks : float) :
  (view ticks = FNaN ->
   TimestampFromTicks localtime_r ticks = Raise ValueError
   /\ DateFromTicks localtime_r ticks = Raise ValueError
   /\ TimeFromTicks localtime_r ticks = Raise ValueError)
  /\ (forall negative, view ticks = FInf negative ->
      TimestampFromTicks localtime_r ticks = Raise OverflowError
      /\ DateFromTicks localtime_r ticks = Raise OverflowError
      /\ TimeFromTicks localtime_r ticks = Raise OverflowError).
Proof.
  unfold DateFromTicks, TimeFromTicks, TimestampFromTicks, math_floor.
  split; [intros ->|intros negative ->]; repeat split.
Qed.

Lemma from_ticks_not_finite_witness :
  TimestampFromTicks utc_localtime nan = Raise ValueError
  /\ DateFromTicks utc_localtime infinity = Raise OverflowError
  /\ TimeFromTicks utc_localtime neg_infinity = Raise OverflowError.
Proof.
  split; [|split].
  - apply (proj1 (from_ticks_not_finite utc_localtime nan)).
    vm_compute. reflexivity.
  - apply (proj2 (from_ticks_not_finite utc_localtime infinity) false).
    vm_compute. reflexivity.
  - apply (proj2 (from_ticks_not_finite utc_localtime neg_infinity) true).
    vm_compute. reflexivity.
Defined.



(** X18. When the fraction of [ticks] rounds to a number of microseconds
    outside 0..999999, none of the three functions returns, whatever the
    clock: not the date either, which has no microseconds. *)
Theorem from_ticks_fraction_out_of_range
    (localtime_r : Z -> result struct_time) (ticks : float) (us : Z)
    (Hus : fraction_microseconds ticks = Ok us)
    (Hout : us < 0 \/ 999999 < us) :
  ~ is_Ok (TimestampFromTicks localtime_r ticks)
  /\ ~ is_Ok (DateFromTicks localtime_r ticks)
  /\ ~ is_Ok (TimeFromTicks localtime_r ticks).
Proof.
  assert (forall dt, TimestampFromTicks localtime_r ticks <> Ok dt) as H.
  { apply (TimestampFromTicks_fraction_overflow localtime_r ticks us Hus). lia. }
  unfold DateFromTicks, TimeFromTicks.
  repeat split; intros [x Hx];
    destruct (TimestampFromTicks localtime_r ticks) as [dt|e] eqn:Hts;
    try discriminate; exact (H dt eq_refl).
Qed.

Lemma from_ticks_fraction_out_of_range_witness :
  fraction_microseconds ticks_carry = Ok 1000000
  /\ ~ is_Ok (TimestampFromTicks utc_localtime ticks_carry)
  /\ ~ is_Ok (DateFromTicks utc_localtime ticks_carry)
  /\ ~ is_Ok (TimeFromTicks utc_localtime ticks_carry).
Proof.
  assert (fraction_microseconds ticks_carry = Ok 1000000) as H
    by (vm_compute; reflexivity).
  split; [exact H|].
  apply (from_ticks_fraction_out_of_range utc_localtime ticks_carry 1000000 H).
  right. lia.
Defined.

(** X19. The timestamp returned is the instant asked for, up to the
    rounding of the fraction: when the fields and the offset the clock gives
    for the whole seconds describe those whole seconds, the timestamp lies
    [floor(ticks)] seconds and its microsecond field after the epoch, and
    that field is the rounded fraction. The offset attached to the
    timestamp undoes the shift of the local fields. *)
Theorem TimestampFromTicks_instant
    (localtime_r : Z -> result struct_time) (ticks : float)
    (dt : datetime) (secs : Z)
    (Hdt : TimestampFromTicks localtime_r ticks = Ok dt)
    (Hsecs : math_floor ticks = Ok secs)
    (Hclock : forall t, localtime_r secs = Ok t -> struct_time_epoch t = secs) :
  datetime_epoch_us dt = Some (secs * 1000000 + microsecond dt)
  /\ fraction_microseconds ticks = Ok (microsecond dt).
Proof.
  destruct (TimestampFromTicks_epoch_us localtime_r ticks dt secs Hdt Hsecs)
    as (us & Hus & Hepoch).
  - intros t Ht. apply Hclock.
    exact (time_localtime_floor localtime_r ticks secs t Hsecs Ht).
  - apply TimestampFromTicks_second_of_clock in Hdt as (t & _ & _ & Hus').
    rewrite Hus in Hus'. injection Hus' as ->. auto.
Qed.

Lemma TimestampFromTicks_instant_witness :
  math_floor 1612345678.25 = Ok 1612345678
  /\ datetime_epoch_us
       {| year := 2021; month := 2; day := 3;
          hour := 10; minute := 47; second := 58; microsecond := 250000;
          tzinfo := Some {| utcoffset := {| td_seconds := 3600 |} |} |}
     = Some (1612345678 * 1000000 + 250000)
  /\ fraction_microseconds 1612345678.25 = Ok 250000.
Proof.
  assert (math_floor 1612345678.25 = Ok 1612345678) as Hsecs
    by (vm_compute; reflexivity).
  split; [exact Hsecs|].
  apply (TimestampFromTicks_instant (fixed_offset_localtime 3600)
           1612345678.25
           {| year := 2021; month := 2; day := 3;
              hour := 10; minute := 47; second := 58; microsecond := 250000;
              tzinfo := Some {| utcoffset := {| td_seconds := 3600 |} |} |}
           1612345678).
  - vm_compute. reflexivity.
  - exact Hsecs.
  - intros t Ht. apply fixed_offset_localtime_consistent in Ht. tauto.
Defined.

(** X20. The instant of the timestamp does not depend on the time zone of
    the clock: two clocks that each describe the whole seconds they are
    asked for, with whatever offsets, give timestamps of the same ticks that
    are the same number of microseconds after the epoch, and with the same
    microsecond field. *)
Theorem TimestampFromTicks_instant_any_zone
    (clock1 clock2 : Z -> result struct_time) (ticks : float)
    (dt1 dt2 : datetime)
    (Hdt1 : TimestampFromTicks clock1 ticks = Ok dt1)
    (Hdt2 : TimestampFromTicks clock2 ticks = Ok dt2)
    (Hclock1 : forall s t, clock1 s = Ok t -> struct_time_epoch t = s)
    (Hclock2 : forall s t, clock2 s = Ok t -> struct_time_epoch t = s) :
  datetime_epoch_us dt1 = datetime_epoch_us dt2
  /\ microsecond dt1 = microsecond dt2.
Proof.
  destruct (math_floor ticks) as [secs|e] eqn:Hsecs.
  - destruct (TimestampFromTicks_epoch_us clock1 ticks dt1 secs Hdt1 Hsecs)
      as (us1 & Hus1 & Hepoch1).
    { intros t Ht. apply (Hclock1 secs).
      exact (time_localtime_floor clock1 ticks secs t Hsecs Ht). }
    destruct (TimestampFromTicks_epoch_us clock2 ticks dt2 secs Hdt2 Hsecs)
      as (us2 & Hus2 & Hepoch2).
    { intros t Ht. apply (Hclock2 secs).
      exact (time_localtime_floor clock2 ticks secs t Hsecs Ht). }
    apply TimestampFromTicks_second_of_clock in Hdt1 as (t1 & _ & _ & Hm1).
    apply TimestampFromTicks_second_of_clock in Hdt2 as (t2 & _ & _ & Hm2).
    rewrite Hus1 in Hus2, Hm1, Hm2.
    injection Hus2 as <-. injection Hm1 as Hm1. injection Hm2 as Hm2.
    split; congruence.
  - unfold TimestampFromTicks in Hdt1. rewrite Hsecs in Hdt1. discriminate.
Qed.

Lemma TimestampFromTicks_instant_any_zone_witness :
  TimestampFromTicks (fixed_offset_localtime 3600) (-0.5)
    = Ok {| year := 1970; month := 1; day := 1;
            hour := 0; minute := 59; second := 59; microsecond := 500000;
            tzinfo := Some {| utcoffset := {| td_seconds := 3600 |} |} |}
  /\ TimestampFromTicks (fixed_offset_localtime (-18000)) (-0.5)
     = Ok {| year := 1969; month := 12; day := 31;
             hour := 18; minute := 59; second := 59; microsecond := 500000;
             tzinfo := Some {| utcoffset := {| td_seconds := -18000 |} |} |}
  /\ datetime_epoch_us
       {| year := 1970; month := 1; day := 1;
          hour := 0; minute := 59; second := 59; microsecond := 500000;
          tzinfo := Some {| utcoffset := {| td_seconds := 3600 |} |} |}
     = datetime_epoch_us
         {| year := 1969; month := 12; day := 31;
            hour := 18; minute := 59; second := 59; microsecond := 500000;
            tzinfo := Some {| utcoffset := {| td_seconds := -18000 |} |} |}.
Proof.
  assert (TimestampFromTicks (fixed_offset_localtime 3600) (-0.5)
          = Ok {| year := 1970; month := 1; day := 1;
                  hour := 0; minute := 59; second := 59; microsecond := 500000;
                  tzinfo := Some {| utcoffset := {| td_seconds := 3600 |} |} |})
    as H1 by (vm_compute; reflexivity).
  assert (TimestampFromTicks (fixed_offset_localtime (-18000)) (-0.5)
          = Ok {| year := 1969; month := 12; day := 31;
                  hour := 18; minute := 59; second := 59; microsecond := 500000;
                  tzinfo := Some {| utcoffset := {| td_seconds := -18000 |} |} |})
    as H2 by (vm_compute; reflexivity).
  split; [exact H1|]. split; [exact H2|].
  apply (TimestampFromTicks_instant_any_zone _ _ _ _ _ H1 H2).
  - intros s t Ht. apply fixed_offset_localtime_consistent in Ht. tauto.
  - intros s t Ht. apply fixed_offset_localtime_consistent in Ht. tauto.
Defined.
